(** * club_api: the GeoGuessr club client, the member record and its flattening

    A shallow embedding of [src/club_api.py].

    - JSON documents are the values [requests]' [resp.json()] hands back:
      [None], booleans, integers, floats, strings, lists and dicts.
    - A Python [dict] is an association list in insertion order; [dict_setitem]
      is [d[k] = v] (overwrite in place, or append), [dict_] is the [dict(items)]
      constructor and [dict_splat] the [{**a, **b, ...}] display.
    - Code that can raise returns a [result]; code that talks to the network,
      the environment or standard output runs in the state-and-error monad [M]
      over a [world]. *)

From Stdlib Require Import ZArith List String Ascii Bool Lia PrimFloat DecimalString.
Import ListNotations.
Open Scope string_scope.
Open Scope list_scope.

Set Warnings "-register-all".

(** ** Values *)

Inductive value : Type :=
| VNone
| VBool (b : bool)
| VInt (n : Z)
| VFloat (x : float)
| VStr (s : string)
| VList (l : list value)
| VDict (d : list (string * value)).

(** A dict, as the list of its items in insertion order. *)
Definition dict : Type := list (string * value).

(** The nested induction principle: the elements of a list and the values of a
    dict satisfy the property. *)
Fixpoint value_nested_ind (P : value -> Prop)
    (HNone : P VNone)
    (HBool : forall b, P (VBool b))
    (HInt : forall n, P (VInt n))
    (HFloat : forall x, P (VFloat x))
    (HStr : forall s, P (VStr s))
    (HList : forall l, Forall P l -> P (VList l))
    (HDict : forall d, Forall (fun kv => P (snd kv)) d -> P (VDict d))
    (v : value) {struct v} : P v :=
  let rec := value_nested_ind P HNone HBool HInt HFloat HStr HList HDict in
  match v with
  | VNone => HNone
  | VBool b => HBool b
  | VInt n => HInt n
  | VFloat x => HFloat x
  | VStr s => HStr s
  | VList l =>
      HList l ((fix all (l : list value) : Forall P l :=
                  match l with
                  | [] => Forall_nil P
                  | x :: t => Forall_cons x (rec x) (all t)
                  end) l)
  | VDict d =>
      HDict d ((fix all (d : dict) : Forall (fun kv => P (snd kv)) d :=
                  match d with
                  | [] => Forall_nil _
                  | kv :: t => Forall_cons kv (rec (snd kv)) (all t)
                  end) d)
  end.

(** [type(v).__name__]. *)
Definition type_name (v : value) : string :=
  match v with
  | VNone => "NoneType"
  | VBool _ => "bool"
  | VInt _ => "int"
  | VFloat _ => "float"
  | VStr _ => "str"
  | VList _ => "list"
  | VDict _ => "dict"
  end.

(** [bool(v)]: what [not v], [if v] and [v or w] test. *)
Definition truthy (v : value) : bool :=
  match v with
  | VNone => false
  | VBool b => b
  | VInt n => negb (n =? 0)%Z
  | VFloat x => negb (PrimFloat.eqb x 0%float)
  | VStr s => negb (s =? "")%string
  | VList l => match l with [] => false | _ :: _ => true end
  | VDict d => match d with [] => false | _ :: _ => true end
  end.

(** [a or b]. *)
Definition py_or (a b : value) : value := if truthy a then a else b.

(** [str(n)] for an integer. *)
Definition str_int (n : Z) : string := NilZero.string_of_int (Z.to_int n).

(** ** Exceptions and results *)

Inductive exn : Type :=
| ValueError (msg : string)
| Exception (msg : string)
| AttributeError (msg : string)
| TypeError (msg : string)
| JSONDecodeError.

Inductive result (A : Type) : Type :=
| Return (a : A)
| Raise (e : exn).
Arguments Return {A} a.
Arguments Raise {A} e.

Definition rbind {A B : Type} (r : result A) (k : A -> result B) : result B :=
  match r with
  | Return a => k a
  | Raise e => Raise e
  end.

Declare Scope result_scope.
Delimit Scope result_scope with result.
Notation "x <- c ;; k" := (rbind c (fun x => k))
  (at level 61, c at next level, right associativity) : result_scope.

(** The message of the [AttributeError] for [v.attr] on a value that has no
    such attribute. *)
Definition no_attribute (v : value) (attr : string) : exn :=
  AttributeError
    ("'" ++ type_name v ++ "' object has no attribute '" ++ attr ++ "'")%string.

(** ** Dicts *)

(** [d.get(k)] on a dict: the binding of [k], if any. *)
Fixpoint dict_lookup (d : dict) (k : string) : option value :=
  match d with
  | [] => None
  | (k', v) :: t => if (k' =? k)%string then Some v else dict_lookup t k
  end.

(** [d[k] = v]: an existing key keeps its position and takes the new value, a new
    key goes last. *)
Fixpoint dict_setitem (d : dict) (k : string) (v : value) : dict :=
  match d with
  | [] => [(k, v)]
  | (k', v') :: t =>
      if (k' =? k)%string then (k, v) :: t else (k', v') :: dict_setitem t k v
  end.

(** [d.update(items)]. *)
Definition dict_update (d : dict) (items : list (string * value)) : dict :=
  fold_left (fun acc kv => dict_setitem acc (fst kv) (snd kv)) items d.

(** [dict(items)]. *)
Definition dict_ (items : list (string * value)) : dict := dict_update [] items.

(** [{**a, **b, **c, **d}]. *)
Definition dict_splat (ds : list dict) : dict := dict_ (List.concat ds).

(** [d.keys()]. *)
Definition keys (d : dict) : list string := map fst d.

(** [v.items()] on a value of any type. *)
Definition py_items (v : value) : result dict :=
  match v with
  | VDict d => Return d
  | _ => Raise (no_attribute v "items")
  end.

(** [v.get(k, default)] on a value of any type. *)
Definition py_get (v : value) (k : string) (default : value) : result value :=
  match v with
  | VDict d =>
      Return (match dict_lookup d k with Some x => x | None => default end)
  | _ => Raise (no_attribute v "get")
  end.

(** [for x in v]: the elements the iteration yields. *)
Definition py_iter (v : value) : result (list value) :=
  match v with
  | VList l => Return l
  | VDict d => Return (map VStr (keys d))
  | VStr s => Return (map (fun c => VStr (String c EmptyString)) (list_ascii_of_string s))
  | _ => Raise (TypeError ("'" ++ type_name v ++ "' object is not iterable")%string)
  end.

(** ** ClubMember *)

Module ClubMember.

(** [new_key = f"{parent_key}{sep}{k}" if parent_key else k]. *)
Definition new_key (parent_key sep k : string) : string :=
  match parent_key with
  | EmptyString => k
  | _ => (parent_key ++ sep ++ k)%string
  end.

(** One turn of the loop of [flatten_dict], after [new_key] is computed: the items
    it adds to [items].  A dict value adds the items of its own flattening. *)
Fixpoint flatten_entry (v : value) (nk sep : string) {struct v} : list (string * value) :=
  match v with
  | VDict d' =>
      dict_ (flat_map (fun kv => flatten_entry (snd kv) (new_key nk sep (fst kv)) sep) d')
  | _ => [(nk, v)]
  end.

(** The items collected by the loop over [d.items()]. *)
Definition flatten_items (d : dict) (parent_key sep : string) : list (string * value) :=
  flat_map (fun kv => flatten_entry (snd kv) (new_key parent_key sep (fst kv)) sep) d.

(** [flatten_dict] on a dict. *)
Definition flatten (d : dict) (parent_key sep : string) : dict :=
  dict_ (flatten_items d parent_key sep).

(** [ClubMember.flatten_dict(d, parent_key, sep)]; [d.items()] raises when [d] is
    not a dict. *)
Definition flatten_dict (d : value) (parent_key sep : string) : result dict :=
  (its <- py_items d ;;
   Return (flatten its parent_key sep))%result.

(** A member record: the attributes [__init__] sets. *)
Record t : Type := mk {
  raw_membership : dict;
  raw_user : value;
  user_id : value;
  stats : value;
  peak_rating : value
}.

(** [ClubMember(data)]. *)
Definition __init__ (data : value) : result t :=
  (its <- py_items data ;;
   let raw_membership := dict_ (filter (fun kv => negb (fst kv =? "user")%string) its) in
   raw_user <- py_get data "user" (VDict []) ;;
   user_id <- py_get raw_user "userId" (VStr "") ;;
   Return (mk raw_membership raw_user user_id (VDict []) (VDict [])))%result.

(** The [nick] property. *)
Definition nick (self : t) : result value :=
  py_get (raw_user self) "nick" (VStr "").

Definition update_stats (self : t) (stats : value) : t :=
  mk (raw_membership self) (raw_user self) (user_id self)
     (py_or stats (VDict [])) (peak_rating self).

Definition update_peak_rating (self : t) (rating : value) : t :=
  mk (raw_membership self) (raw_user self) (user_id self)
     (stats self) (py_or rating (VDict [])).

Definition to_dict (self : t) : result dict :=
  (base_user <- flatten_dict (raw_user self) "user" "." ;;
   base_membership <- flatten_dict (VDict (raw_membership self)) "membership" "." ;;
   flat_stats <- flatten_dict (stats self) "stats" "." ;;
   flat_rating <- flatten_dict (peak_rating self) "peakRating" "." ;;
   Return (dict_splat [base_user; base_membership; flat_stats; flat_rating]))%result.

End ClubMember.

(** ** The world of the client *)

(** What [session.get] returns: the status code, and the body as [resp.json()]
    decodes it ([None] when the body is not JSON). *)
Record response : Type := mk_response {
  status_code : Z;
  body : option value
}.

(** [resp.json()]. *)
Definition json (resp : response) : result value :=
  match body resp with
  | Some v => Return v
  | None => Raise JSONDecodeError
  end.

(** A [requests.Session]: the cookies (name, value, domain) and the headers the
    client sets on it. *)
Record Session : Type := mk_session {
  cookies : list (string * string * string);
  headers : list (string * string)
}.

(** A written CSV file: its name, the header row and the records of the rows. *)
Record csv_file : Type := mk_csv {
  csv_name : string;
  csv_columns : list string;
  csv_rows : list dict
}.

Record world : Type := mk_world {
  environ : string -> option string;   (* the environment, after load_dotenv() *)
  server : string -> response;         (* the service's answer to a GET of a URL *)
  sessions : nat;                      (* Session objects created so far *)
  sent : list string;                  (* URLs of the GET requests issued, oldest first *)
  stdout : list string;                (* lines printed, oldest first *)
  slept : nat;                         (* calls of time.sleep(0.2) *)
  files : list csv_file                (* files written, oldest first *)
}.

(** Computations that read and change the world and may raise. *)
Definition M (A : Type) : Type := world -> result A * world.

Definition ret {A : Type} (a : A) : M A := fun w => (Return a, w).

Definition raise {A : Type} (e : exn) : M A := fun w => (Raise e, w).

Definition bind {A B : Type} (c : M A) (k : A -> M B) : M B :=
  fun w =>
    match c w with
    | (Return a, w') => k a w'
    | (Raise e, w') => (Raise e, w')
    end.

Definition lift {A : Type} (r : result A) : M A := fun w => (r, w).

Declare Scope monad_scope.
Delimit Scope monad_scope with monad.
Notation "x <- c ;; k" := (bind c (fun x => k))
  (at level 61, c at next level, right associativity) : monad_scope.
Notation "c ;;; k" := (bind c (fun _ => k))
  (at level 61, right associativity) : monad_scope.

(** [os.getenv(name)]. *)
Definition getenv (name : string) : M (option string) :=
  fun w => (Return (environ w name), w).

(** [requests.Session()]. *)
Definition new_session : M Session :=
  fun w =>
    (Return (mk_session [] []),
     mk_world (environ w) (server w) (S (sessions w)) (sent w) (stdout w) (slept w) (files w)).

(** [session.get(url)]. *)
Definition session_get (s : Session) (url : string) : M response :=
  fun w =>
    (Return (server w url),
     mk_world (environ w) (server w) (sessions w) (sent w ++ [url]) (stdout w) (slept w) (files w)).

(** [print(line)]. *)
Definition print (line : string) : M unit :=
  fun w =>
    (Return tt,
     mk_world (environ w) (server w) (sessions w) (sent w) (stdout w ++ [line]) (slept w) (files w)).

(** [time.sleep(0.2)]. *)
Definition sleep : M unit :=
  fun w =>
    (Return tt,
     mk_world (environ w) (server w) (sessions w) (sent w) (stdout w) (S (slept w)) (files w)).

(** [df.to_csv(filename, index=False)]. *)
Definition to_csv (f : csv_file) : M unit :=
  fun w =>
    (Return tt,
     mk_world (environ w) (server w) (sessions w) (sent w) (stdout w) (slept w) (files w ++ [f])).

(** [[f(x) for x in xs]], stopping at the first call that raises. *)
Fixpoint comprehension {A B : Type} (f : A -> M B) (xs : list A) : M (list B) :=
  match xs with
  | [] => ret []
  | x :: t => (y <- f x ;; ys <- comprehension f t ;; ret (y :: ys))%monad
  end.

(** ** GeoGuessrClubAPI *)

Module GeoGuessrClubAPI.

Definition BASE_URL : string := "https://www.geoguessr.com/api".

Record t : Type := mk { session : Session }.

(** [not ncfa_token] for an optional string. *)
Definition not_token (ncfa_token : option string) : bool :=
  match ncfa_token with
  | None => true
  | Some s => (s =? "")%string
  end.

(** The string of a token that passed the [not ncfa_token] test. *)
Definition token_text (ncfa_token : option string) : string :=
  match ncfa_token with
  | Some s => s
  | None => ""
  end.

(** [session.cookies.set(name, value, domain=domain)] on a session that has no
    such cookie yet. *)
Definition cookies_set (s : Session) (name val domain : string) : Session :=
  mk_session (cookies s ++ [(name, val, domain)]) (headers s).

(** [session.headers.update(hs)], for headers the client has not set yet. *)
Definition headers_update (s : Session) (hs : list (string * string)) : Session :=
  mk_session (cookies s) (headers s ++ hs).

(** [GeoGuessrClubAPI(ncfa_token)]. *)
Definition __init__ (ncfa_token : option string) : M t :=
  (ncfa_token <- (if not_token ncfa_token then getenv "NCFA_TOKEN" else ret ncfa_token) ;;
   if not_token ncfa_token
   then raise (ValueError "NCFA_TOKEN must be provided or set in environment variables")
   else
     s <- new_session ;;
     let s := cookies_set s "_ncfa" (token_text ncfa_token) "www.geoguessr.com" in
     let s := headers_update s [("User-Agent", "GeoStatsClub/1.0"); ("Accept", "application/json")] in
     ret (mk s))%monad.

Definition _get (self : t) (path : string) (raise_on_error : bool) : M value :=
  (let url := (BASE_URL ++ path)%string in
   resp <- session_get (session self) url ;;
   if (status_code resp =? 200)%Z then lift (json resp)
   else if raise_on_error
        then raise (Exception ("Failed to fetch " ++ path ++ ": HTTP " ++ str_int (status_code resp))%string)
        else ret VNone)%monad.

Definition get_profile (self : t) : M value :=
  _get self "/v3/profiles" true.

Definition get_club_members (self : t) (club_id : string) : M value :=
  _get self ("/v4/clubs/" ++ club_id ++ "/members")%string true.

Definition get_user_stats (self : t) (user_id : string) : M value :=
  _get self ("/v4/stats/users/" ++ user_id)%string false.

Definition get_user_peak_rating (self : t) (user_id : string) : M value :=
  _get self ("/v4/ranked-system/peak-rating/" ++ user_id)%string false.

End GeoGuessrClubAPI.

(** ** Export and the main program *)

Section Orchestrator.

(** [repr] of a value that is not a string, as an f-string prints it.  It is
    Python's own and plays no part in what is proved. *)
Variable py_repr : value -> string.

(** [f"{v}"]. *)
Definition format (v : value) : string :=
  match v with
  | VStr s => s
  | _ => py_repr v
  end.

(** The columns of [pd.DataFrame(rows)]: the keys of the rows, in the order they
    are first seen. *)
Definition columns (rows : list dict) : list string :=
  fold_left
    (fun acc r =>
       fold_left
         (fun acc k => if existsb (String.eqb k) acc then acc else acc ++ [k])
         (keys r) acc)
    rows [].

Definition export_members_to_csv (members : list ClubMember.t) (filename : string) : M unit :=
  (rows <- comprehension (fun m => lift (ClubMember.to_dict m)) members ;;
   to_csv (mk_csv filename (columns rows) rows) ;;;
   print ("Exported " ++ str_int (Z.of_nat (List.length members)) ++ " members to " ++ filename)%string)%monad.

(** The loop [for i, member in enumerate(members, 1)] from index [i] on; [n] is
    [len(members)].  The members are updated in place: the list returned holds
    them as the loop leaves them. *)
Fixpoint fetch_loop (api : GeoGuessrClubAPI.t) (n i : nat) (members : list ClubMember.t)
    : M (list ClubMember.t) :=
  match members with
  | [] => ret []
  | member :: rest =>
      (stats <- GeoGuessrClubAPI.get_user_stats api (format (ClubMember.user_id member)) ;;
       let member := ClubMember.update_stats member stats in
       rating <- GeoGuessrClubAPI.get_user_peak_rating api (format (ClubMember.user_id member)) ;;
       let member := ClubMember.update_peak_rating member rating in
       nick <- lift (ClubMember.nick member) ;;
       print ("[" ++ str_int (Z.of_nat i) ++ "/" ++ str_int (Z.of_nat n)
                  ++ "] Fetched stats for " ++ format nick)%string ;;;
       sleep ;;;
       rest' <- fetch_loop api n (S i) rest ;;
       ret (member :: rest'))%monad
  end.

(** The [__main__] block. *)
Definition main : M unit :=
  (api <- GeoGuessrClubAPI.__init__ None ;;
   profile <- GeoGuessrClubAPI.get_profile api ;;
   user <- lift (py_get profile "user" (VDict [])) ;;
   club <- lift (py_get user "club" (VDict [])) ;;
   CLUB_ID <- lift (py_get club "clubId" VNone) ;;
   if negb (truthy CLUB_ID)
   then raise (ValueError "User is not in a club or clubId not found in profile.")
   else
     members_json <- GeoGuessrClubAPI.get_club_members api (format CLUB_ID) ;;
     entries <- lift (py_iter members_json) ;;
     members <- comprehension (fun m => lift (ClubMember.__init__ m)) entries ;;
     print "Fetching user stats and ratings..." ;;;
     members <- fetch_loop api (List.length members) 1 members ;;
     export_members_to_csv members "club_members_with_all_stats.csv")%monad.

End Orchestrator.

(** ** Vocabulary of the statements *)

(** [isinstance(v, dict)]. *)
Definition is_dict (v : value) : bool :=
  match v with
  | VDict _ => true
  | _ => false
  end.

(** A one-level mapping: no value is itself a mapping. *)
Definition one_level (d : dict) : bool :=
  forallb (fun kv => negb (is_dict (snd kv))) d.

(** The mapping [{P.k: v}] for the pairs [(k, v)] of [d]. *)
Definition prefixed (P : string) (d : dict) : dict :=
  map (fun kv => ((P ++ "." ++ fst kv)%string, snd kv)) d.

(** Two dicts share no key. *)
Definition disjoint (a b : dict) : Prop :=
  forall k, In k (keys a) -> ~ In k (keys b).

(** Every binding of [a] is a binding of [b]. *)
Definition included (a b : dict) : Prop :=
  forall k v, dict_lookup a k = Some v -> dict_lookup b k = Some v.

(** The leaves of a nested document: the values that are not mappings. *)
Fixpoint leaves (v : value) : nat :=
  match v with
  | VDict d => list_sum (map (fun kv => leaves (snd kv)) d)
  | _ => 1
  end.

(** The error classes of the design, as the code raises them: a configuration
    error is the [ValueError] of [__init__] and of the main program, a request
    error the [Exception] of [_get]. *)
Definition ConfigurationError (e : exn) : bool :=
  match e with
  | ValueError _ => true
  | _ => false
  end.

Definition RequestError (e : exn) : bool :=
  match e with
  | Exception _ => true
  | _ => false
  end.

(** Whether a result is a raised error of the class [c]. *)
Definition raises {A : Type} (c : exn -> bool) (r : result A) : bool :=
  match r with
  | Raise e => c e
  | Return _ => false
  end.

(** A world in which nothing has happened yet. *)
Definition initial_world (env : string -> option string) (srv : string -> response) : world :=
  mk_world env srv 0 [] [] 0 [].

(** *** The scenario of the specification *)

(** One membership entry, the statistics fetched for its user, and the record
    expected from them when the peak rating is missing. *)
Definition scenario_entry : value :=
  VDict [("user", VDict [("userId", VStr "u1"); ("nick", VStr "Alice")]);
         ("role", VStr "admin")].

Definition scenario_stats : value :=
  VDict [("verified", VDict [("distance", VInt 1200)])].

Definition scenario_record : dict :=
  [("user.userId", VStr "u1"); ("user.nick", VStr "Alice");
   ("membership.role", VStr "admin"); ("stats.verified.distance", VInt 1200)].

(** A document in which a literal key and a nested path spell the same dotted
    path. *)
Definition collision_doc : dict :=
  [("a.b", VInt 1); ("a", VDict [("b", VInt 2)])].

(** *** Sample worlds *)

(** A client as [__init__] builds it from the credential [token]. *)
Definition sample_api : GeoGuessrClubAPI.t :=
  GeoGuessrClubAPI.mk
    (mk_session [("_ncfa", "token", "www.geoguessr.com")]
                [("User-Agent", "GeoStatsClub/1.0"); ("Accept", "application/json")]).

(** An environment with no variable set, and one that holds the credential. *)
Definition empty_environ : string -> option string := fun _ => None.

Definition token_environ : string -> option string :=
  fun name => if (name =? "NCFA_TOKEN")%string then Some "token" else None.

(** A service that answers every request with [404] and no JSON body, and one
    that answers every request with [200] and the document [v]. *)
Definition not_found : string -> response := fun _ => mk_response 404 None.

Definition always (v : value) : string -> response := fun _ => mk_response 200 (Some v).

(** The profile of a user in no club, with the club spelled as a JSON [null],
    and the profile with an empty user document. *)
Definition null_club_profile : value := VDict [("user", VDict [("club", VNone)])].

Definition empty_user_profile : value := VDict [("user", VDict [])].

(** The service of the scenario: a profile in club [c1], whose one member is
    [u1]; statistics for [u1]; and [404] for everything else, the peak rating
    included. *)
Definition scenario_server (url : string) : response :=
  if (url =? "https://www.geoguessr.com/api/v3/profiles")%string
  then mk_response 200 (Some (VDict [("user", VDict [("club", VDict [("clubId", VStr "c1")])])]))
  else if (url =? "https://www.geoguessr.com/api/v4/clubs/c1/members")%string
  then mk_response 200 (Some (VList [scenario_entry]))
  else if (url =? "https://www.geoguessr.com/api/v4/stats/users/u1")%string
  then mk_response 200 (Some scenario_stats)
  else mk_response 404 None.

(** *** Paths through a document *)

(** The dotted key of the path [p] below [parent_key]: [new_key] applied along
    the path. *)
Definition dotted (parent_key sep : string) (p : list string) : string :=
  fold_left (fun acc k => ClubMember.new_key acc sep k) p parent_key.

(** [leaf_at d p v]: following the keys of [p] from [d] through nested mappings
    ends on the value [v], which is not a mapping. *)
Inductive leaf_at : dict -> list string -> value -> Prop :=
| leaf_here (d : dict) (k : string) (v : value) :
    In (k, v) d -> is_dict v = false -> leaf_at d [k] v
| leaf_below (d : dict) (k : string) (d' : dict) (p : list string) (v : value) :
    In (k, VDict d') d -> leaf_at d' p v -> leaf_at d (k :: p) v.

(** The empty mapping [{}]. *)
Definition is_empty_dict (v : value) : bool :=
  match v with
  | VDict [] => true
  | _ => false
  end.

(** Every key of [d] with [q] written in front. *)
Definition add_prefix (q : string) (d : dict) : dict :=
  map (fun kv => ((q ++ fst kv)%string, snd kv)) d.

(** *** Sample members *)

(** The member built from the entry of the scenario, before any update. *)
Definition scenario_member : ClubMember.t :=
  ClubMember.mk [("role", VStr "admin")]
                (VDict [("userId", VStr "u1"); ("nick", VStr "Alice")])
                (VStr "u1") (VDict []) (VDict []).

(** *** Worlds after requests *)

(** The world [w] after GET requests to [urls], in order, and nothing else. *)
Definition after_requests (w : world) (urls : list string) : world :=
  mk_world (environ w) (server w) (sessions w) (sent w ++ urls)
           (stdout w) (slept w) (files w).

(** The credential [__init__] settles on: the argument when it is a non-empty
    string, the environment's otherwise. *)
Definition chosen_token (ncfa_token : option string) (w : world) : option string :=
  if GeoGuessrClubAPI.not_token ncfa_token then environ w "NCFA_TOKEN" else ncfa_token.

(** *** The per-member loop, read as a function *)

(** [traverse f xs]: the results of [f] on the elements of [xs], or the first
    error. *)
Fixpoint traverse {A B : Type} (f : A -> result B) (xs : list A) : result (list B) :=
  match xs with
  | [] => Return []
  | x :: t => (y <- f x ;; ys <- traverse f t ;; Return (y :: ys))%result
  end.

(** A service whose every 200 answer has a JSON body. *)
Definition answers_json (srv : string -> response) : Prop :=
  forall url, status_code (srv url) = 200%Z -> body (srv url) <> None.

(** What a tolerant fetch of [url] brings back from such a service: the body of a
    200 answer, [None] for any other. *)
Definition answer (srv : string -> response) (url : string) : value :=
  if (status_code (srv url) =? 200)%Z
  then match body (srv url) with Some v => v | None => VNone end
  else VNone.

(** The two URLs the loop requests for a member. *)
Definition stats_url (py_repr : value -> string) (m : ClubMember.t) : string :=
  ("https://www.geoguessr.com/api/v4/stats/users/"
     ++ format py_repr (ClubMember.user_id m))%string.

Definition rating_url (py_repr : value -> string) (m : ClubMember.t) : string :=
  ("https://www.geoguessr.com/api/v4/ranked-system/peak-rating/"
     ++ format py_repr (ClubMember.user_id m))%string.

(** A member after its turn of the loop. *)
Definition refresh (py_repr : value -> string) (srv : string -> response)
    (m : ClubMember.t) : ClubMember.t :=
  ClubMember.update_peak_rating
    (ClubMember.update_stats m (answer srv (stats_url py_repr m)))
    (answer srv (rating_url py_repr m)).

(** The name the progress line shows for a member. *)
Definition nick_text (py_repr : value -> string) (m : ClubMember.t) : string :=
  match ClubMember.nick m with
  | Return v => format py_repr v
  | Raise _ => ""
  end.

(** The progress lines of the loop from index [i] on, [n] being the total. *)
Fixpoint progress_lines (py_repr : value -> string) (n i : nat)
    (members : list ClubMember.t) : list string :=
  match members with
  | [] => []
  | m :: rest =>
      ("[" ++ str_int (Z.of_nat i) ++ "/" ++ str_int (Z.of_nat n)
           ++ "] Fetched stats for " ++ nick_text py_repr m)%string
      :: progress_lines py_repr n (S i) rest
  end.

(** A service that knows one user: [200] with [stats] for the statistics of
    [u1], and [404] for every other request. *)
Definition stats_only_server (url : string) : response :=
  if (url =? "https://www.geoguessr.com/api/v4/stats/users/u1")%string
  then mk_response 200 (Some scenario_stats)
  else mk_response 404 None.

(** *** The main program, step by step *)

(** The client [__init__] builds from the credential [tok], and the world once
    its session exists. *)
Definition client_of (tok : string) : GeoGuessrClubAPI.t :=
  GeoGuessrClubAPI.mk
    (mk_session [("_ncfa", tok, "www.geoguessr.com")]
                [("User-Agent", "GeoStatsClub/1.0"); ("Accept", "application/json")]).

Definition with_session (w : world) : world :=
  mk_world (environ w) (server w) (S (sessions w)) (sent w) (stdout w) (slept w) (files w).

(** The two URLs the main program requests first. *)
Definition profile_url : string := "https://www.geoguessr.com/api/v3/profiles".

Definition members_url (club_id : string) : string :=
  ("https://www.geoguessr.com/api/v4/clubs/" ++ club_id ++ "/members")%string.

(** The message of the error [_get] raises for a failed request. *)
Definition fetch_failure (path : string) (status : Z) : exn :=
  Exception ("Failed to fetch " ++ path ++ ": HTTP " ++ str_int status)%string.

(** The club identifier the main program reads from a profile. *)
Definition club_id_of (profile : value) : result value :=
  (user <- py_get profile "user" (VDict []) ;;
   club <- py_get user "club" (VDict []) ;;
   py_get club "clubId" VNone)%result.

(** A service that answers the profile request with a club [c1] and every other
    request with [503]. *)
Definition profile_only_server (url : string) : response :=
  if (url =? "https://www.geoguessr.com/api/v3/profiles")%string
  then mk_response 200 (Some (VDict [("user", VDict [("club", VDict [("clubId", VStr "c1")])])]))
  else mk_response 503 None.

(** What the main program does once it holds a club identifier. *)
Definition main_with_club (py_repr : value -> string) (api : GeoGuessrClubAPI.t)
    (CLUB_ID : value) : M unit :=
  (members_json <- GeoGuessrClubAPI.get_club_members api (format py_repr CLUB_ID) ;;
   entries <- lift (py_iter members_json) ;;
   members <- comprehension (fun m => lift (ClubMember.__init__ m)) entries ;;
   print "Fetching user stats and ratings..." ;;;
   members <- fetch_loop py_repr api (List.length members) 1 members ;;
   export_members_to_csv members "club_members_with_all_stats.csv")%monad.

(** A service that answers the profile request with a club [c1], the member list
    request of that club with [members_json], and every other request with
    [404]. *)
Definition club_server (members_json : value) (url : string) : response :=
  if (url =? "https://www.geoguessr.com/api/v3/profiles")%string
  then mk_response 200 (Some (VDict [("user", VDict [("club", VDict [("clubId", VStr "c1")])])]))
  else if (url =? "https://www.geoguessr.com/api/v4/clubs/c1/members")%string
  then mk_response 200 (Some members_json)
  else mk_response 404 None.

(** A service that answers every request with [200] and a body that is not
    JSON. *)
Definition not_json : string -> response := fun _ => mk_response 200 None.

(** * Properties *)

(** ** Strings *)

Lemma append_inj_r (p a b : string) : (p ++ a)%string = (p ++ b)%string -> a = b.
Proof.
  induction p as [|c p IH]; simpl; intro H.
  - exact H.
  - injection H as H. now apply IH.
Qed.

Lemma append_nonempty (p r : string) : p <> EmptyString -> (p ++ r)%string <> EmptyString.
Proof.
  destruct p; simpl; [congruence | discriminate].
Qed.

Lemma append_assoc (a b c : string) :
  ((a ++ b) ++ c)%string = (a ++ (b ++ c))%string.
Proof.
  induction a as [|x a IH]; simpl; [reflexivity | now rewrite IH].
Qed.

Lemma prefix_append (p r : string) : prefix p (p ++ r) = true.
Proof.
  induction p as [|c p IH]; simpl.
  - now destruct r.
  - destruct (ascii_dec c c); [exact IH | congruence].
Qed.

Lemma prefix_append_l (p q s : string) :
  prefix (p ++ q) s = true -> prefix p s = true.
Proof.
  revert s. induction p as [|c p IH]; simpl; intros s H.
  - now destruct s.
  - destruct s as [|c' s]; simpl in *; [discriminate|].
    destruct (ascii_dec c c'); [now apply IH | discriminate].
Qed.

(** Two prefixes of one string start with the same character. *)
Lemma prefix_first_char (a b : ascii) (p q s : string) :
  prefix (String a p) s = true -> prefix (String b q) s = true -> a = b.
Proof.
  destruct s as [|c s]; simpl; [discriminate|].
  destruct (ascii_dec a c), (ascii_dec b c); congruence.
Qed.

Lemma new_key_nonempty (parent_key sep k : string) :
  parent_key <> EmptyString ->
  ClubMember.new_key parent_key sep k = (parent_key ++ sep ++ k)%string.
Proof.
  destruct parent_key; [congruence | reflexivity].
Qed.

(** ** Dicts *)

Lemma keys_app (a b : dict) : keys (a ++ b) = keys a ++ keys b.
Proof. unfold keys. apply map_app. Qed.

Lemma dict_lookup_None (d : dict) (k : string) :
  dict_lookup d k = None <-> ~ In k (keys d).
Proof.
  induction d as [|[k' v] t IH]; simpl.
  - tauto.
  - destruct (String.eqb_spec k' k) as [->|Hne].
    + split; [discriminate | tauto].
    + rewrite IH. tauto.
Qed.

Lemma dict_lookup_In (d : dict) (k : string) (v : value) :
  dict_lookup d k = Some v -> In (k, v) d.
Proof.
  induction d as [|[k' v'] t IH]; simpl; [discriminate|].
  destruct (String.eqb_spec k' k) as [->|Hne].
  - intros [= ->]. now left.
  - intro H. right. now apply IH.
Qed.

Lemma In_dict_lookup (d : dict) (k : string) (v : value) :
  NoDup (keys d) -> In (k, v) d -> dict_lookup d k = Some v.
Proof.
  induction d as [|[k' v'] t IH]; simpl; [tauto|].
  intros Hnd [H|H].
  - injection H as -> ->. now rewrite String.eqb_refl.
  - inversion Hnd as [|? ? Hnot Hnd']; subst.
    destruct (String.eqb_spec k' k) as [->|Hne].
    + exfalso. apply Hnot. change k with (fst (k, v)). now apply in_map.
    + now apply IH.
Qed.

Lemma dict_lookup_app (a b : dict) (k : string) :
  dict_lookup (a ++ b) k =
  match dict_lookup a k with Some v => Some v | None => dict_lookup b k end.
Proof.
  induction a as [|[k' v'] t IH]; simpl; [reflexivity|].
  destruct (k' =? k)%string; [reflexivity | exact IH].
Qed.

(** Appending is what [d[k] = v] does for a key that is not there yet. *)
Lemma dict_setitem_new (d : dict) (k : string) (v : value) :
  ~ In k (keys d) -> dict_setitem d k v = d ++ [(k, v)].
Proof.
  induction d as [|[k' v'] t IH]; simpl; intro H; [reflexivity|].
  destruct (String.eqb_spec k' k) as [->|Hne]; [tauto|].
  rewrite IH; tauto.
Qed.

Lemma dict_lookup_setitem (d : dict) (k k' : string) (v : value) :
  dict_lookup (dict_setitem d k v) k' =
  if (k =? k')%string then Some v else dict_lookup d k'.
Proof.
  induction d as [|[k0 v0] t IH]; simpl.
  - reflexivity.
  - destruct (String.eqb_spec k0 k) as [->|Hne]; simpl.
    + destruct (k =? k')%string; reflexivity.
    + rewrite IH. destruct (String.eqb_spec k0 k') as [->|Hne'].
      * destruct (String.eqb_spec k k'); [congruence | reflexivity].
      * reflexivity.
Qed.

Lemma keys_setitem (d : dict) (k k' : string) (v : value) :
  In k' (keys (dict_setitem d k v)) <-> k' = k \/ In k' (keys d).
Proof.
  induction d as [|[k0 v0] t IH]; simpl.
  - intuition congruence.
  - destruct (String.eqb_spec k0 k) as [->|Hne]; simpl.
    + intuition congruence.
    + rewrite IH. intuition congruence.
Qed.

Lemma NoDup_keys_setitem (d : dict) (k : string) (v : value) :
  NoDup (keys d) -> NoDup (keys (dict_setitem d k v)).
Proof.
  induction d as [|[k0 v0] t IH]; simpl; intro H.
  - constructor; [simpl; tauto | constructor].
  - inversion H as [|? ? Hnot Hnd]; subst.
    destruct (String.eqb_spec k0 k) as [->|Hne]; simpl.
    + now constructor.
    + constructor; [|now apply IH].
      change (~ In k0 (keys (dict_setitem t k v))).
      rewrite keys_setitem. intros [->|Hin]; [congruence | now apply Hnot].
Qed.

(** [d.update(items)] looks a key up among the items first, the last one that
    binds it, and in [d] otherwise. *)
Lemma dict_lookup_update (items : list (string * value)) (d : dict) (k : string) :
  dict_lookup (dict_update d items) k =
  match dict_lookup (rev items) k with
  | Some v => Some v
  | None => dict_lookup d k
  end.
Proof.
  unfold dict_update. revert d.
  induction items as [|[k0 v0] t IH]; simpl; intro d; [reflexivity|].
  rewrite IH, dict_lookup_app, dict_lookup_setitem. simpl.
  destruct (dict_lookup (rev t) k); [reflexivity|].
  destruct (k0 =? k)%string; reflexivity.
Qed.

(** In [dict(items)] the last item that binds a key wins. *)
Lemma dict_lookup_dict_ (items : list (string * value)) (k : string) :
  dict_lookup (dict_ items) k = dict_lookup (rev items) k.
Proof.
  unfold dict_. rewrite dict_lookup_update. simpl.
  now destruct (dict_lookup (rev items) k).
Qed.

Lemma keys_update (items : list (string * value)) (d : dict) (k : string) :
  In k (keys (dict_update d items)) <-> In k (keys d) \/ In k (keys items).
Proof.
  unfold dict_update. revert d.
  induction items as [|[k0 v0] t IH]; simpl; intro d; [tauto|].
  rewrite IH, keys_setitem. intuition congruence.
Qed.

Lemma keys_dict_ (items : list (string * value)) (k : string) :
  In k (keys (dict_ items)) <-> In k (keys items).
Proof.
  unfold dict_. rewrite keys_update. simpl. tauto.
Qed.

Lemma NoDup_keys_update (items : list (string * value)) (d : dict) :
  NoDup (keys d) -> NoDup (keys (dict_update d items)).
Proof.
  unfold dict_update. revert d.
  induction items as [|[k0 v0] t IH]; simpl; intros d H; [exact H|].
  apply IH. now apply NoDup_keys_setitem.
Qed.

(** A dict built by [dict(items)] has no key twice. *)
Lemma NoDup_keys_dict_ (items : list (string * value)) : NoDup (keys (dict_ items)).
Proof. apply NoDup_keys_update. constructor. Qed.

(** Items with distinct keys, none of them in [d], are appended in order. *)
Lemma dict_update_fresh (items : list (string * value)) (d : dict) :
  NoDup (keys d ++ keys items) -> dict_update d items = d ++ items.
Proof.
  unfold dict_update. revert d.
  induction items as [|[k0 v0] t IH]; simpl; intros d H.
  - now rewrite app_nil_r.
  - assert (Hnew : ~ In k0 (keys d)).
    { intro Hin. apply NoDup_remove_2 in H. apply H. apply in_or_app. now left. }
    rewrite (dict_setitem_new _ _ _ Hnew), IH.
    + now rewrite <- app_assoc.
    + rewrite keys_app. simpl. rewrite <- app_assoc. exact H.
Qed.

(** [dict(items)] is [items] itself when no key comes twice. *)
Lemma dict__NoDup (items : list (string * value)) :
  NoDup (keys items) -> dict_ items = items.
Proof.
  intro H. unfold dict_. now rewrite dict_update_fresh.
Qed.

(** ** Flattening *)

Lemma NoDup_map_inj {A B : Type} (f : A -> B) (l : list A) :
  (forall x y, f x = f y -> x = y) -> NoDup l -> NoDup (map f l).
Proof.
  intros Hinj H. induction H as [|x l Hnot Hnd IH]; simpl; constructor.
  - intro Hin. apply in_map_iff in Hin as [y [Hy Hin]].
    apply Hinj in Hy. now subst.
  - exact IH.
Qed.

Lemma new_key_inj (parent_key sep a b : string) :
  ClubMember.new_key parent_key sep a = ClubMember.new_key parent_key sep b -> a = b.
Proof.
  destruct parent_key as [|c p]; simpl; intro H; [exact H|].
  injection H as H. apply append_inj_r in H. now apply append_inj_r in H.
Qed.

(** On a one-level mapping the loop emits one item per entry, under its new
    key. *)
Lemma flatten_items_one_level (d : dict) (parent_key sep : string) :
  one_level d = true ->
  ClubMember.flatten_items d parent_key sep =
  map (fun kv => (ClubMember.new_key parent_key sep (fst kv), snd kv)) d.
Proof.
  unfold ClubMember.flatten_items, one_level.
  induction d as [|[k v] t IH]; simpl; intro H; [reflexivity|].
  apply andb_prop in H as [Hv Ht]. rewrite (IH Ht).
  destruct v; simpl in *; try reflexivity; discriminate.
Qed.

Lemma flatten_one_level (d : dict) (parent_key sep : string) :
  NoDup (keys d) -> one_level d = true ->
  ClubMember.flatten d parent_key sep =
  map (fun kv => (ClubMember.new_key parent_key sep (fst kv), snd kv)) d.
Proof.
  intros Hnd H1. unfold ClubMember.flatten.
  rewrite (flatten_items_one_level _ _ _ H1).
  apply dict__NoDup. unfold keys. rewrite map_map. simpl.
  rewrite <- (map_map fst (ClubMember.new_key parent_key sep)).
  apply NoDup_map_inj; [apply new_key_inj | exact Hnd].
Qed.

(** C1: flattening a one-level mapping [d] under a non-empty prefix [P] gives
    the mapping [{P.k: v}] of the pairs [(k, v)] of [d], and under the empty
    prefix it gives [d] back unchanged. *)
Theorem flatten_dict_one_level (d : dict) (P : string) :
  NoDup (keys d) -> one_level d = true ->
  (P <> EmptyString ->
   ClubMember.flatten_dict (VDict d) P "." = Return (prefixed P d)) /\
  ClubMember.flatten_dict (VDict d) "" "." = Return d.
Proof.
  intros Hnd H1. unfold ClubMember.flatten_dict. simpl. split.
  - intro HP. rewrite (flatten_one_level _ _ _ Hnd H1). f_equal.
    unfold prefixed. apply map_ext. intros [k v]. simpl.
    now rewrite (new_key_nonempty _ _ _ HP).
  - rewrite (flatten_one_level _ _ _ Hnd H1). f_equal.
    simpl. rewrite <- (map_id d) at 2. apply map_ext. now intros [k v].
Qed.

Lemma flatten_dict_one_level_witness :
  ClubMember.flatten_dict (VDict [("nick", VStr "Alice"); ("level", VInt 7)]) "user" "."
  = Return [("user.nick", VStr "Alice"); ("user.level", VInt 7)]
  /\ ClubMember.flatten_dict (VDict [("nick", VStr "Alice"); ("level", VInt 7)]) "" "."
     = Return [("nick", VStr "Alice"); ("level", VInt 7)].
Proof.
  assert (Hnd : NoDup (keys [("nick", VStr "Alice"); ("level", VInt 7)])).
  { simpl. repeat constructor; simpl; intuition discriminate. }
  destruct (flatten_dict_one_level
              [("nick", VStr "Alice"); ("level", VInt 7)] "user" Hnd eq_refl)
    as [Hp He].
  split; [apply Hp; discriminate | exact He].
Defined.

(** ** Sections of a flattened record *)

Lemma prefix_refl (s : string) : prefix s s = true.
Proof.
  induction s as [|c s IH]; simpl; [reflexivity|].
  destruct (ascii_dec c c); [exact IH | congruence].
Qed.

Lemma In_keys_flat_map {A : Type} (f : A -> list (string * value)) (l : list A) (k : string) :
  In k (keys (flat_map f l)) <-> exists x, In x l /\ In k (keys (f x)).
Proof.
  unfold keys. rewrite in_map_iff. split.
  - intros [kv [Hk Hin]]. apply in_flat_map in Hin as [x [Hx Hkv]].
    exists x. split; [exact Hx|]. apply in_map_iff. now exists kv.
  - intros [x [Hx Hin]]. apply in_map_iff in Hin as [kv [Hk Hkv]].
    exists kv. split; [exact Hk|]. apply in_flat_map. now exists x.
Qed.

(** Every key an entry emits starts with the entry's new key. *)
Lemma flatten_entry_keys (sep : string) (v : value) :
  forall nk k, nk <> EmptyString ->
  In k (keys (ClubMember.flatten_entry v nk sep)) -> prefix nk k = true.
Proof.
  induction v as [| b | n | x | s | l _ | d IH] using value_nested_ind;
    intros nk k Hnk Hin;
    try (simpl in Hin; destruct Hin as [<-|[]]; apply prefix_refl).
  simpl in Hin. apply (proj1 (keys_dict_ _ _)) in Hin.
  apply (proj1 (In_keys_flat_map _ _ _)) in Hin as [[k' v'] [Hkv Hin]]. simpl in Hin.
  rewrite Forall_forall in IH.
  rewrite (new_key_nonempty _ _ _ Hnk) in Hin.
  apply (IH _ Hkv) in Hin; [|now apply append_nonempty].
  now apply prefix_append_l in Hin.
Qed.

(** Every key of a mapping flattened under a non-empty prefix starts with the
    prefix and the separator. *)
Lemma flatten_keys (d : dict) (P sep k : string) :
  P <> EmptyString ->
  In k (keys (ClubMember.flatten d P sep)) -> prefix (P ++ sep) k = true.
Proof.
  intros HP Hin. unfold ClubMember.flatten in Hin. apply (proj1 (keys_dict_ _ _)) in Hin.
  apply (proj1 (In_keys_flat_map _ _ _)) in Hin as [[k' v'] [Hkv Hin]]. simpl in Hin.
  rewrite (new_key_nonempty _ _ _ HP) in Hin.
  apply flatten_entry_keys in Hin; [|now apply append_nonempty].
  rewrite <- append_assoc in Hin. now apply prefix_append_l in Hin.
Qed.

(** Mappings flattened under prefixes that start with different characters
    share no key. *)
Lemma flatten_disjoint (a b : dict) (ca cb : ascii) (P Q sep : string) :
  ca <> cb ->
  disjoint (ClubMember.flatten a (String ca P) sep) (ClubMember.flatten b (String cb Q) sep).
Proof.
  intros Hne k Ha Hb.
  apply flatten_keys in Ha; [|discriminate].
  apply flatten_keys in Hb; [|discriminate].
  simpl in Ha, Hb. exact (Hne (prefix_first_char _ _ _ _ _ Ha Hb)).
Qed.

Lemma In_keys_concat (ds : list dict) (k : string) :
  In k (keys (List.concat ds)) <-> exists d, In d ds /\ In k (keys d).
Proof.
  induction ds as [|a ds IH]; simpl.
  - split; [tauto | intros [d [[] _]]].
  - rewrite keys_app, in_app_iff, IH. split.
    + intros [H|[d [Hd H]]]; [exists a | exists d]; tauto.
    + intros [d [[->|Hd] H]]; [now left | right; now exists d].
Qed.

Lemma dict_lookup_rev (d : dict) (k : string) :
  NoDup (keys d) -> dict_lookup (rev d) k = dict_lookup d k.
Proof.
  intro Hnd. destruct (dict_lookup d k) as [v|] eqn:E.
  - apply In_dict_lookup.
    + unfold keys. rewrite map_rev. now apply NoDup_rev.
    + apply in_rev. rewrite rev_involutive. now apply dict_lookup_In.
  - apply dict_lookup_None. apply dict_lookup_None in E.
    unfold keys in *. rewrite map_rev. now rewrite <- in_rev.
Qed.

(** Merging dicts that share no key keeps every binding of every one of them. *)
Lemma included_splat (ds : list dict) :
  ForallOrdPairs disjoint ds -> Forall (fun d => NoDup (keys d)) ds ->
  Forall (fun d => included d (dict_splat ds)) ds.
Proof.
  unfold dict_splat, included.
  induction 1 as [|a ds Ha Hds IH]; intro Hnd; constructor.
  - intros k v Hk. rewrite dict_lookup_dict_. simpl.
    rewrite rev_app_distr, dict_lookup_app.
    assert (Hnone : dict_lookup (rev (List.concat ds)) k = None).
    { apply dict_lookup_None. unfold keys. rewrite map_rev, <- in_rev.
      intro Hin. apply (proj1 (In_keys_concat _ _)) in Hin as [d [Hd Hin]].
      rewrite Forall_forall in Ha. apply (Ha d Hd k); [|exact Hin].
      apply dict_lookup_In in Hk.
      change k with (fst (k, v)). now apply in_map. }
    rewrite Hnone, dict_lookup_rev; [exact Hk|]. now inversion Hnd.
  - inversion Hnd as [|? ? _ Hnd']; subst. specialize (IH Hnd').
    rewrite Forall_forall in IH |- *. intros d Hd k v Hk.
    rewrite dict_lookup_dict_. simpl. rewrite rev_app_distr, dict_lookup_app.
    rewrite <- dict_lookup_dict_. now rewrite (IH d Hd k v Hk).
Qed.

(** C2: for all mappings in the four fields of a member, the four sections that
    [to_dict] flattens under [user], [membership], [stats] and [peakRating] have
    pairwise disjoint key sets, [to_dict] returns their merge, and the merge keeps
    every binding of every section. *)
Theorem to_dict_sections_disjoint (m u s r : dict) (uid : value) :
  let self := ClubMember.mk m (VDict u) uid (VDict s) (VDict r) in
  let base_user := ClubMember.flatten u "user" "." in
  let base_membership := ClubMember.flatten m "membership" "." in
  let flat_stats := ClubMember.flatten s "stats" "." in
  let flat_rating := ClubMember.flatten r "peakRating" "." in
  let sections := [base_user; base_membership; flat_stats; flat_rating] in
  ForallOrdPairs disjoint sections /\
  ClubMember.to_dict self = Return (dict_splat sections) /\
  Forall (fun section => included section (dict_splat sections)) sections.
Proof.
  intros self base_user base_membership flat_stats flat_rating sections.
  assert (Hdisj : ForallOrdPairs disjoint sections).
  { unfold sections, base_user, base_membership, flat_stats, flat_rating.
    repeat (constructor; [repeat constructor; apply flatten_disjoint; discriminate|]).
    constructor. }
  split; [exact Hdisj|]. split; [reflexivity|].
  apply included_splat; [exact Hdisj|].
  repeat constructor; apply NoDup_keys_dict_.
Qed.

(** ** The member record *)

(** C3: the membership entry of the scenario, updated with the fetched statistics
    and with a missing peak rating, flattens to exactly the four expected
    bindings, none of them under [peakRating]. *)
Theorem scenario_flattened_record :
  (m <- ClubMember.__init__ scenario_entry ;;
   ClubMember.to_dict
     (ClubMember.update_peak_rating (ClubMember.update_stats m scenario_stats) VNone))%result
  = Return scenario_record
  /\ existsb (prefix "peakRating") (keys scenario_record) = false.
Proof.
  split.
  - unfold scenario_entry, scenario_stats, scenario_record. reflexivity.
  - reflexivity.
Qed.

(** [a or {}] is never [None]. *)
Lemma py_or_dict_not_None (a : value) : py_or a (VDict []) <> VNone.
Proof.
  unfold py_or. destruct a; simpl; try discriminate.
  all: match goal with |- (if ?c then _ else _) <> _ => destruct c end; discriminate.
Qed.

(** C4: whatever the member held before, [update_stats(None)] leaves [stats] the
    empty mapping and [update_peak_rating(None)] leaves [peak_rating] the empty
    mapping, and after an update with any argument the field is not [None]. *)
Theorem update_none_gives_empty (self : ClubMember.t) :
  ClubMember.stats (ClubMember.update_stats self VNone) = VDict [] /\
  ClubMember.peak_rating (ClubMember.update_peak_rating self VNone) = VDict [] /\
  (forall v, ClubMember.stats (ClubMember.update_stats self v) <> VNone) /\
  (forall v, ClubMember.peak_rating (ClubMember.update_peak_rating self v) <> VNone).
Proof.
  repeat split; try reflexivity; intro v; simpl; apply py_or_dict_not_None.
Qed.

(** C10: a membership entry with no [user] key constructs a member whose user
    section is empty, whose [user_id] is the empty string and whose [nick] is
    the empty string. *)
Theorem init_without_user (d : dict) :
  dict_lookup d "user" = None ->
  exists m,
    ClubMember.__init__ (VDict d) = Return m /\
    ClubMember.raw_user m = VDict [] /\
    ClubMember.user_id m = VStr "" /\
    ClubMember.nick m = Return (VStr "") /\
    ClubMember.flatten_dict (ClubMember.raw_user m) "user" "." = Return [].
Proof.
  intro H. unfold ClubMember.__init__. simpl. rewrite H. simpl.
  eexists. split; [reflexivity|]. repeat split.
Qed.

Lemma init_without_user_witness :
  exists m,
    ClubMember.__init__ (VDict [("role", VStr "admin")]) = Return m /\
    ClubMember.raw_user m = VDict [] /\
    ClubMember.user_id m = VStr "" /\
    ClubMember.nick m = Return (VStr "") /\
    ClubMember.flatten_dict (ClubMember.raw_user m) "user" "." = Return [].
Proof.
  apply (init_without_user [("role", VStr "admin")]). reflexivity.
Defined.

(** A well-formed entry keeps all its fields but [user] as membership fields. *)
Lemma init_raw_membership (d : dict) (m : ClubMember.t) :
  NoDup (keys d) ->
  ClubMember.__init__ (VDict d) = Return m ->
  ClubMember.raw_membership m = filter (fun kv => negb (fst kv =? "user")%string) d.
Proof.
  intros Hnd. unfold ClubMember.__init__. simpl.
  destruct (py_get _ "userId" _) as [uid|e]; simpl; [|discriminate].
  intros [= <-]. simpl. apply dict__NoDup.
  clear uid. induction d as [|[k v] t IH]; simpl; [constructor|].
  inversion Hnd as [|? ? Hnot Hnd']; subst.
  destruct (negb (k =? "user")%string); simpl; [|now apply IH].
  constructor; [|now apply IH].
  intro Hin. apply Hnot. unfold keys in *.
  apply in_map_iff in Hin as [kv [Hk Hin]]. apply filter_In in Hin as [Hin _].
  apply in_map_iff. now exists kv.
Qed.

(** ** Colliding paths *)

Lemma length_setitem (d : dict) (k : string) (v : value) :
  List.length (dict_setitem d k v) <= S (List.length d).
Proof.
  induction d as [|[k' v'] t IH]; simpl; [lia|].
  destruct (k' =? k)%string; simpl; lia.
Qed.

Lemma length_update (items : list (string * value)) (d : dict) :
  List.length (dict_update d items) <= List.length d + List.length items.
Proof.
  unfold dict_update. revert d.
  induction items as [|[k v] t IH]; simpl; intro d; [lia|].
  specialize (IH (dict_setitem d k v)).
  pose proof (length_setitem d k v). lia.
Qed.

(** [dict(items)] has at most as many bindings as there are items. *)
Lemma length_dict_ (items : list (string * value)) :
  List.length (dict_ items) <= List.length items.
Proof. unfold dict_. now rewrite length_update. Qed.

Lemma length_flat_map_le (f : string * value -> list (string * value)) (d : dict) :
  Forall (fun kv => List.length (f kv) <= leaves (snd kv)) d ->
  List.length (flat_map f d) <= list_sum (map (fun kv => leaves (snd kv)) d).
Proof.
  induction 1 as [|kv t Hkv _ IH]; simpl; [lia|].
  rewrite length_app. lia.
Qed.

Lemma flatten_entry_length (sep : string) (v : value) :
  forall nk, List.length (ClubMember.flatten_entry v nk sep) <= leaves v.
Proof.
  induction v as [| b | n | x | s | l _ | d IH] using value_nested_ind;
    intro nk; simpl; try lia.
  etransitivity; [apply length_dict_|].
  apply length_flat_map_le.
  rewrite Forall_forall in IH |- *. intros kv Hkv. now apply IH.
Qed.

(** Flattening never yields more bindings than the document has leaves. *)
Lemma flatten_length (d : dict) (parent_key sep : string) :
  List.length (ClubMember.flatten d parent_key sep) <= leaves (VDict d).
Proof.
  unfold ClubMember.flatten, ClubMember.flatten_items. simpl.
  etransitivity; [apply length_dict_|].
  apply length_flat_map_le.
  rewrite Forall_forall. intros kv _. apply flatten_entry_length.
Qed.

(** C9: flattening a mapping raises nothing; where several emitted items carry
    the same dotted path, the result binds the path to the value emitted last;
    so the result can have fewer bindings than the input has leaves, as for a
    literal key [a.b] next to a nested [a] holding [b], in either order. *)
Theorem flatten_collision_last_wins :
  (forall d P sep,
     ClubMember.flatten_dict (VDict d) P sep = Return (ClubMember.flatten d P sep)) /\
  (forall d P sep k,
     dict_lookup (ClubMember.flatten d P sep) k =
     dict_lookup (rev (ClubMember.flatten_items d P sep)) k) /\
  (forall d P sep,
     List.length (ClubMember.flatten d P sep) <= leaves (VDict d)) /\
  ClubMember.flatten_items collision_doc "stats" "." =
    [("stats.a.b", VInt 1); ("stats.a.b", VInt 2)] /\
  ClubMember.flatten_dict (VDict collision_doc) "stats" "." =
    Return [("stats.a.b", VInt 2)] /\
  ClubMember.flatten_dict (VDict (rev collision_doc)) "stats" "." =
    Return [("stats.a.b", VInt 1)] /\
  leaves (VDict collision_doc) = 2.
Proof.
  split; [reflexivity|].
  split; [intros d P sep k; apply dict_lookup_dict_|].
  split; [apply flatten_length|].
  repeat split.
Qed.

(** ** The client *)

(** What one [_get] does: one request, and the answer by status and flag. *)
Lemma _get_run (self : GeoGuessrClubAPI.t) (path : string) (raise_on_error : bool) (w : world) :
  let resp := server w (GeoGuessrClubAPI.BASE_URL ++ path)%string in
  fst (GeoGuessrClubAPI._get self path raise_on_error w) =
    (if (status_code resp =? 200)%Z then json resp
     else if raise_on_error
          then Raise (Exception ("Failed to fetch " ++ path ++ ": HTTP "
                                   ++ str_int (status_code resp))%string)
          else Return VNone) /\
  sent (snd (GeoGuessrClubAPI._get self path raise_on_error w)) =
    sent w ++ [(GeoGuessrClubAPI.BASE_URL ++ path)%string] /\
  sessions (snd (GeoGuessrClubAPI._get self path raise_on_error w)) = sessions w.
Proof.
  unfold GeoGuessrClubAPI._get, bind, session_get, lift, raise, ret. simpl.
  destruct (status_code _ =? 200)%Z; [|destruct raise_on_error]; simpl; auto.
Qed.

Lemma _get_tolerant (self : GeoGuessrClubAPI.t) (path : string) (w : world) :
  let resp := server w (GeoGuessrClubAPI.BASE_URL ++ path)%string in
  (status_code resp <> 200%Z ->
   fst (GeoGuessrClubAPI._get self path false w) = Return VNone) /\
  (status_code resp = 200%Z ->
   fst (GeoGuessrClubAPI._get self path false w) = json resp).
Proof.
  intro resp. destruct (_get_run self path false w) as [H _]. fold resp in H.
  rewrite H. split; intro Hs.
  - apply Z.eqb_neq in Hs. now rewrite Hs.
  - apply Z.eqb_eq in Hs. now rewrite Hs.
Qed.

Lemma _get_strict (self : GeoGuessrClubAPI.t) (path : string) (w : world) :
  let resp := server w (GeoGuessrClubAPI.BASE_URL ++ path)%string in
  raises RequestError (fst (GeoGuessrClubAPI._get self path true w)) =
    negb (status_code resp =? 200)%Z /\
  (status_code resp = 200%Z ->
   fst (GeoGuessrClubAPI._get self path true w) = json resp) /\
  (forall v, fst (GeoGuessrClubAPI._get self path true w) = Return v ->
             status_code resp = 200%Z /\ body resp = Some v).
Proof.
  intro resp. destruct (_get_run self path true w) as [H _]. fold resp in H.
  rewrite H. destruct (Z.eqb_spec (status_code resp) 200) as [Hs|Hs].
  - unfold json. destruct (body resp) as [b|]; simpl; repeat split; congruence.
  - simpl. repeat split; congruence.
Qed.

(** C5: on a response whose status is not 200, [get_user_stats] and
    [get_user_peak_rating] raise nothing and return [None]; on status 200 they
    return what [resp.json()] gives, the parsed body. *)
Theorem per_member_fetch_tolerant (self : GeoGuessrClubAPI.t) (user_id : string) (w : world) :
  let stats := server w (GeoGuessrClubAPI.BASE_URL ++ "/v4/stats/users/" ++ user_id)%string in
  let rating :=
    server w (GeoGuessrClubAPI.BASE_URL ++ "/v4/ranked-system/peak-rating/" ++ user_id)%string in
  (status_code stats <> 200%Z ->
   fst (GeoGuessrClubAPI.get_user_stats self user_id w) = Return VNone) /\
  (status_code stats = 200%Z ->
   fst (GeoGuessrClubAPI.get_user_stats self user_id w) = json stats) /\
  (status_code rating <> 200%Z ->
   fst (GeoGuessrClubAPI.get_user_peak_rating self user_id w) = Return VNone) /\
  (status_code rating = 200%Z ->
   fst (GeoGuessrClubAPI.get_user_peak_rating self user_id w) = json rating).
Proof.
  intros stats rating.
  destruct (_get_tolerant self ("/v4/stats/users/" ++ user_id) w) as [A B].
  destruct (_get_tolerant self ("/v4/ranked-system/peak-rating/" ++ user_id) w) as [C D].
  unfold GeoGuessrClubAPI.get_user_stats, GeoGuessrClubAPI.get_user_peak_rating.
  tauto.
Qed.

Lemma per_member_fetch_tolerant_witness :
  fst (GeoGuessrClubAPI.get_user_stats sample_api "u1"
         (initial_world token_environ not_found)) = Return VNone /\
  fst (GeoGuessrClubAPI.get_user_stats sample_api "u1"
         (initial_world token_environ (always scenario_stats))) = Return scenario_stats /\
  fst (GeoGuessrClubAPI.get_user_peak_rating sample_api "u1"
         (initial_world token_environ not_found)) = Return VNone /\
  fst (GeoGuessrClubAPI.get_user_peak_rating sample_api "u1"
         (initial_world token_environ (always (VDict [])))) = Return (VDict []).
Proof.
  destruct (per_member_fetch_tolerant sample_api "u1"
              (initial_world token_environ not_found)) as (A & _ & C & _).
  destruct (per_member_fetch_tolerant sample_api "u1"
              (initial_world token_environ (always scenario_stats))) as (_ & B & _ & _).
  destruct (per_member_fetch_tolerant sample_api "u1"
              (initial_world token_environ (always (VDict [])))) as (_ & _ & _ & D).
  split; [apply A; discriminate|].
  split; [apply B; reflexivity|].
  split; [apply C; discriminate | apply D; reflexivity].
Defined.

(** C6: [get_profile] and [get_club_members] raise the request error exactly when
    the status of the response is not 200; on status 200 they return what
    [resp.json()] gives; and every value they return is the parsed body of a 200
    response, never the substitute for a failed request. *)
Theorem mandatory_fetch_strict (self : GeoGuessrClubAPI.t) (club_id : string) (w : world) :
  let profile := server w (GeoGuessrClubAPI.BASE_URL ++ "/v3/profiles")%string in
  let members :=
    server w (GeoGuessrClubAPI.BASE_URL ++ "/v4/clubs/" ++ club_id ++ "/members")%string in
  (raises RequestError (fst (GeoGuessrClubAPI.get_profile self w)) =
     negb (status_code profile =? 200)%Z /\
   (status_code profile = 200%Z ->
    fst (GeoGuessrClubAPI.get_profile self w) = json profile) /\
   (forall v, fst (GeoGuessrClubAPI.get_profile self w) = Return v ->
              status_code profile = 200%Z /\ body profile = Some v)) /\
  (raises RequestError (fst (GeoGuessrClubAPI.get_club_members self club_id w)) =
     negb (status_code members =? 200)%Z /\
   (status_code members = 200%Z ->
    fst (GeoGuessrClubAPI.get_club_members self club_id w) = json members) /\
   (forall v, fst (GeoGuessrClubAPI.get_club_members self club_id w) = Return v ->
              status_code members = 200%Z /\ body members = Some v)).
Proof.
  intros profile members. split.
  - apply (_get_strict self "/v3/profiles" w).
  - apply (_get_strict self ("/v4/clubs/" ++ club_id ++ "/members") w).
Qed.

Lemma mandatory_fetch_strict_witness :
  fst (GeoGuessrClubAPI.get_profile sample_api
         (initial_world token_environ (always empty_user_profile)))
    = Return empty_user_profile /\
  fst (GeoGuessrClubAPI.get_club_members sample_api "c1"
         (initial_world token_environ (always (VList [scenario_entry]))))
    = Return (VList [scenario_entry]).
Proof.
  destruct (mandatory_fetch_strict sample_api "c1"
              (initial_world token_environ (always empty_user_profile)))
    as ((_ & A & _) & _).
  destruct (mandatory_fetch_strict sample_api "c1"
              (initial_world token_environ (always (VList [scenario_entry]))))
    as (_ & (_ & B & _)).
  split; [apply A | apply B]; reflexivity.
Defined.

(** Without a usable credential, given or in the environment, construction
    raises and leaves the world as it was. *)
Lemma init_no_token (ncfa_token : option string) (w : world) :
  GeoGuessrClubAPI.not_token ncfa_token = true ->
  GeoGuessrClubAPI.not_token (environ w "NCFA_TOKEN") = true ->
  GeoGuessrClubAPI.__init__ ncfa_token w =
  (Raise (ValueError "NCFA_TOKEN must be provided or set in environment variables"), w).
Proof.
  intros H1 H2. unfold GeoGuessrClubAPI.__init__, bind. rewrite H1.
  unfold getenv. now rewrite H2.
Qed.

(** C7: with no credential in the argument and none in the environment,
    constructing the client raises the configuration error, and the world is
    left as it was: no session is created and no request is issued. *)
Theorem init_without_credential (w : world) :
  environ w "NCFA_TOKEN" = None ->
  raises ConfigurationError (fst (GeoGuessrClubAPI.__init__ None w)) = true /\
  snd (GeoGuessrClubAPI.__init__ None w) = w /\
  sessions (snd (GeoGuessrClubAPI.__init__ None w)) = sessions w /\
  sent (snd (GeoGuessrClubAPI.__init__ None w)) = sent w.
Proof.
  intro H. rewrite (init_no_token None w); [now repeat split | reflexivity|].
  now rewrite H.
Qed.

Lemma init_without_credential_witness :
  raises ConfigurationError
    (fst (GeoGuessrClubAPI.__init__ None (initial_world empty_environ not_found))) = true /\
  sent (snd (GeoGuessrClubAPI.__init__ None (initial_world empty_environ not_found))) = [].
Proof.
  destruct (init_without_credential (initial_world empty_environ not_found) eq_refl)
    as (A & _ & _ & B).
  split; [exact A | exact B].
Defined.

(** With a credential, construction creates one session and sends nothing. *)
Lemma init_with_token (tok : string) (w : world) :
  tok <> EmptyString ->
  exists api,
    fst (GeoGuessrClubAPI.__init__ (Some tok) w) = Return api /\
    cookies (GeoGuessrClubAPI.session api) = [("_ncfa", tok, "www.geoguessr.com")] /\
    sessions (snd (GeoGuessrClubAPI.__init__ (Some tok) w)) = S (sessions w) /\
    sent (snd (GeoGuessrClubAPI.__init__ (Some tok) w)) = sent w.
Proof.
  intro H. apply String.eqb_neq in H.
  unfold GeoGuessrClubAPI.__init__, bind, ret. simpl. rewrite H. simpl. rewrite H. simpl.
  eexists. repeat split.
Qed.

(** ** The main program *)

(** When every step of the path [user.club.clubId] lands on a mapping or on a
    missing key, and no usable identifier is found, the main program raises the
    configuration error after the profile request alone. *)
Lemma main_no_club_id (py_repr : value -> string) (w : world) (tok : string)
    (profile user club club_id : value) :
  environ w "NCFA_TOKEN" = Some tok -> tok <> EmptyString ->
  server w "https://www.geoguessr.com/api/v3/profiles" = mk_response 200 (Some profile) ->
  py_get profile "user" (VDict []) = Return user ->
  py_get user "club" (VDict []) = Return club ->
  py_get club "clubId" VNone = Return club_id ->
  truthy club_id = false ->
  fst (main py_repr w) =
    Raise (ValueError "User is not in a club or clubId not found in profile.") /\
  sent (snd (main py_repr w)) = sent w ++ ["https://www.geoguessr.com/api/v3/profiles"].
Proof.
  intros Henv Htok Hsrv Hu Hc Hid Hfalsy.
  apply String.eqb_neq in Htok.
  unfold main, bind, GeoGuessrClubAPI.__init__, GeoGuessrClubAPI.get_profile,
    GeoGuessrClubAPI._get, bind, getenv, new_session, session_get, lift, raise, ret.
  simpl. rewrite Henv. simpl. rewrite Htok. simpl. rewrite Hsrv. simpl.
  rewrite Hu, Hc, Hid, Hfalsy. simpl. split; reflexivity.
Qed.

(** The profile with an empty user document is such a case. *)
Lemma main_empty_user_profile (py_repr : value -> string) :
  let w := initial_world token_environ (always empty_user_profile) in
  raises ConfigurationError (fst (main py_repr w)) = true /\
  sent (snd (main py_repr w)) = ["https://www.geoguessr.com/api/v3/profiles"].
Proof.
  intro w.
  destruct (main_no_club_id py_repr w "token" empty_user_profile
              (VDict []) (VDict []) VNone) as [A B];
    try reflexivity; try discriminate.
  rewrite A, B. split; reflexivity.
Qed.

(** C8, on the profile whose club is a JSON [null]: no club identifier is
    reachable, and the main program stops after the profile request alone, but
    with the [AttributeError] of [None.get], not with the configuration error. *)
Theorem main_null_club_profile (py_repr : value -> string) :
  let w := initial_world token_environ (always null_club_profile) in
  fst (main py_repr w) = Raise (AttributeError "'NoneType' object has no attribute 'get'") /\
  raises ConfigurationError (fst (main py_repr w)) = false /\
  sent (snd (main py_repr w)) = ["https://www.geoguessr.com/api/v3/profiles"].
Proof.
  intro w. repeat split.
Qed.

(** The whole run of the scenario: four requests in order, one pause, two lines
    printed, and one file whose single row is the expected record. *)
Example main_scenario_run (py_repr : value -> string) :
  let w := initial_world token_environ scenario_server in
  fst (main py_repr w) = Return tt /\
  sent (snd (main py_repr w)) =
    ["https://www.geoguessr.com/api/v3/profiles";
     "https://www.geoguessr.com/api/v4/clubs/c1/members";
     "https://www.geoguessr.com/api/v4/stats/users/u1";
     "https://www.geoguessr.com/api/v4/ranked-system/peak-rating/u1"] /\
  slept (snd (main py_repr w)) = 1 /\
  stdout (snd (main py_repr w)) =
    ["Fetching user stats and ratings...";
     "[1/1] Fetched stats for Alice";
     "Exported 1 members to club_members_with_all_stats.csv"] /\
  files (snd (main py_repr w)) =
    [mk_csv "club_members_with_all_stats.csv" (keys scenario_record) [scenario_record]].
Proof.
  intro w. repeat split.
Qed.

(** ** More on flattening *)

(** Every item of [dict(items)] is one of the items. *)
Lemma In_dict_ (items : list (string * value)) (kv : string * value) :
  In kv (dict_ items) -> In kv items.
Proof.
  destruct kv as [k v]. intro H.
  apply In_dict_lookup in H; [|apply NoDup_keys_dict_].
  rewrite dict_lookup_dict_ in H. apply dict_lookup_In in H.
  now apply in_rev in H.
Qed.

Lemma flatten_entry_flat (sep : string) (v : value) :
  forall nk k x, In (k, x) (ClubMember.flatten_entry v nk sep) -> is_dict x = false.
Proof.
  induction v as [| b | n | y | s | l _ | d IH] using value_nested_ind;
    intros nk k x Hin;
    try (simpl in Hin; destruct Hin as [[= <- <-]|[]]; reflexivity).
  simpl in Hin. apply In_dict_ in Hin.
  apply in_flat_map in Hin as [kv [Hkv Hin]].
  rewrite Forall_forall in IH. exact (IH kv Hkv _ _ _ Hin).
Qed.

Lemma flatten_flat (d : dict) (parent_key sep : string) :
  one_level (ClubMember.flatten d parent_key sep) = true.
Proof.
  unfold one_level. apply forallb_forall. intros [k x] Hin. simpl.
  change (ClubMember.flatten d parent_key sep)
    with (ClubMember.flatten_entry (VDict d) parent_key sep) in Hin.
  now rewrite (flatten_entry_flat _ _ _ _ _ Hin).
Qed.

(** X1: whatever the document, the flattened mapping is single-level: no key
    comes twice and no value is a mapping. *)
Theorem flatten_result_single_level (d : dict) (parent_key sep : string) :
  NoDup (keys (ClubMember.flatten d parent_key sep)) /\
  (forall k v, In (k, v) (ClubMember.flatten d parent_key sep) -> is_dict v = false) /\
  one_level (ClubMember.flatten d parent_key sep) = true.
Proof.
  split; [apply NoDup_keys_dict_|]. split; [|apply flatten_flat].
  intros k v Hin.
  change (ClubMember.flatten d parent_key sep)
    with (ClubMember.flatten_entry (VDict d) parent_key sep) in Hin.
  exact (flatten_entry_flat _ _ _ _ _ Hin).
Qed.

(** X2: flattening is idempotent: flattening a flattened mapping again, with no
    prefix, gives it back. *)
Theorem flatten_idempotent (d : dict) (parent_key sep sep' : string) :
  ClubMember.flatten_dict (VDict (ClubMember.flatten d parent_key sep)) "" sep' =
  Return (ClubMember.flatten d parent_key sep).
Proof.
  unfold ClubMember.flatten_dict. simpl. f_equal.
  rewrite flatten_one_level; [|apply NoDup_keys_dict_|apply flatten_flat].
  simpl. rewrite <- map_id. apply map_ext. now intros [k v].
Qed.

Lemma eqb_append_l (q a b : string) : ((q ++ a) =? (q ++ b))%string = (a =? b)%string.
Proof.
  destruct (String.eqb_spec a b) as [->|Hne].
  - apply String.eqb_refl.
  - apply String.eqb_neq. intro H. now apply append_inj_r in H.
Qed.

Lemma dict_setitem_add_prefix (q : string) (d : dict) (k : string) (v : value) :
  dict_setitem (add_prefix q d) (q ++ k) v = add_prefix q (dict_setitem d k v).
Proof.
  induction d as [|[k' v'] t IH]; simpl; [reflexivity|].
  rewrite eqb_append_l. destruct (k' =? k)%string; simpl; [reflexivity|].
  now rewrite IH.
Qed.

Lemma dict_update_add_prefix (q : string) (items : list (string * value)) (d : dict) :
  dict_update (add_prefix q d) (add_prefix q items) = add_prefix q (dict_update d items).
Proof.
  unfold dict_update. revert d.
  induction items as [|[k v] t IH]; simpl; intro d; [reflexivity|].
  rewrite dict_setitem_add_prefix. apply IH.
Qed.

(** Writing one prefix in front of every key commutes with [dict(items)]. *)
Lemma dict__add_prefix (q : string) (items : list (string * value)) :
  dict_ (add_prefix q items) = add_prefix q (dict_ items).
Proof. unfold dict_. now rewrite <- dict_update_add_prefix. Qed.

Lemma add_prefix_flat_map {A : Type} (q : string) (f : A -> list (string * value)) (l : list A) :
  add_prefix q (flat_map f l) = flat_map (fun x => add_prefix q (f x)) l.
Proof.
  unfold add_prefix. induction l as [|x t IH]; simpl; [reflexivity|].
  now rewrite map_app, IH.
Qed.

Lemma flat_map_ext_in {A B : Type} (f g : A -> list B) (l : list A) :
  (forall x, In x l -> f x = g x) -> flat_map f l = flat_map g l.
Proof.
  induction l as [|x t IH]; simpl; intro H; [reflexivity|].
  rewrite (H x), IH; auto.
Qed.

Lemma flatten_entry_add_prefix (q sep : string) (v : value) :
  forall nk, nk <> EmptyString ->
  ClubMember.flatten_entry v (q ++ nk) sep =
  add_prefix q (ClubMember.flatten_entry v nk sep).
Proof.
  induction v as [| b | n | y | s | l _ | d IH] using value_nested_ind;
    intros nk Hnk; try reflexivity.
  simpl. rewrite <- dict__add_prefix, add_prefix_flat_map. f_equal.
  apply flat_map_ext_in. intros kv Hkv. rewrite Forall_forall in IH.
  rewrite <- (IH kv Hkv); [|rewrite (new_key_nonempty _ _ _ Hnk); now apply append_nonempty].
  f_equal. rewrite !new_key_nonempty; [now rewrite append_assoc | exact Hnk |].
  destruct q; [exact Hnk | discriminate].
Qed.

(** X3: when no top-level key is empty, flattening under a non-empty prefix is
    flattening with no prefix and then writing the prefix and the separator in
    front of every key. *)
Theorem flatten_under_prefix (d : dict) (P sep : string) :
  P <> EmptyString ->
  Forall (fun k => k <> EmptyString) (keys d) ->
  ClubMember.flatten d P sep = add_prefix (P ++ sep) (ClubMember.flatten d "" sep).
Proof.
  intros HP Hkeys. unfold ClubMember.flatten, ClubMember.flatten_items.
  rewrite <- dict__add_prefix, add_prefix_flat_map. f_equal.
  apply flat_map_ext_in. intros [k v] Hkv. simpl.
  assert (Hk : k <> EmptyString).
  { rewrite Forall_forall in Hkeys. apply Hkeys.
    change k with (fst (k, v)). now apply in_map. }
  rewrite <- flatten_entry_add_prefix; [|exact Hk].
  now rewrite (new_key_nonempty _ _ _ HP), append_assoc.
Qed.

Lemma flatten_under_prefix_witness :
  ClubMember.flatten [("verified", VDict [("distance", VInt 1200)])] "stats" "." =
  add_prefix "stats."
    (ClubMember.flatten [("verified", VDict [("distance", VInt 1200)])] "" ".").
Proof.
  apply (flatten_under_prefix [("verified", VDict [("distance", VInt 1200)])] "stats" ".").
  - discriminate.
  - repeat constructor. discriminate.
Defined.

(** The hypothesis on the keys is needed: below an empty key the separator is
    dropped when there is no prefix, and kept when there is one. *)
Example flatten_empty_key :
  ClubMember.flatten [("", VDict [("a", VInt 1)])] "" "." = [("a", VInt 1)] /\
  ClubMember.flatten [("", VDict [("a", VInt 1)])] "P" "." = [("P..a", VInt 1)].
Proof. split; reflexivity. Qed.

(** *** Keys and paths *)

Lemma flatten_entry_sound (sep : string) (v : value) :
  forall nk key x,
  In (key, x) (ClubMember.flatten_entry v nk sep) ->
  (x = v /\ key = nk /\ is_dict v = false) \/
  (exists d p, v = VDict d /\ leaf_at d p x /\ key = dotted nk sep p).
Proof.
  induction v as [| b | n | y | s | l _ | d IH] using value_nested_ind;
    intros nk key x Hin;
    try (simpl in Hin; destruct Hin as [[= <- <-]|[]]; left; repeat split).
  right. exists d. simpl in Hin. apply In_dict_ in Hin.
  apply in_flat_map in Hin as [[k v] [Hkv Hin]]. simpl in Hin.
  rewrite Forall_forall in IH.
  destruct (IH _ Hkv _ _ _ Hin) as [(-> & -> & Hleaf)|(d' & p & Hv & Hp & ->)].
  - exists [k]. split; [reflexivity|]. split; [now apply leaf_here | reflexivity].
  - simpl in Hv. subst v. exists (k :: p). split; [reflexivity|].
    split; [now apply leaf_below with d' | reflexivity].
Qed.

Lemma flatten_complete (sep : string) (d : dict) (p : list string) (x : value) :
  leaf_at d p x ->
  forall parent_key, In (dotted parent_key sep p) (keys (ClubMember.flatten d parent_key sep)).
Proof.
  induction 1 as [d k v Hin Hleaf | d k d' p v Hin _ IH]; intro parent_key;
    apply keys_dict_; apply In_keys_flat_map.
  - exists (k, v). split; [exact Hin|].
    destruct v; try discriminate; simpl; now left.
  - exists (k, VDict d'). split; [exact Hin|].
    apply (IH (ClubMember.new_key parent_key sep k)).
Qed.

(** X4: the keys of a flattened mapping are exactly the dotted paths of the
    leaves of the document, and each key is bound to the value of a leaf at
    such a path. *)
Theorem flatten_keys_are_leaf_paths (d : dict) (parent_key sep : string) :
  (forall key,
     In key (keys (ClubMember.flatten d parent_key sep)) <->
     exists p x, leaf_at d p x /\ key = dotted parent_key sep p) /\
  (forall key x,
     dict_lookup (ClubMember.flatten d parent_key sep) key = Some x ->
     exists p, leaf_at d p x /\ key = dotted parent_key sep p).
Proof.
  assert (Hsound : forall key x,
             In (key, x) (ClubMember.flatten d parent_key sep) ->
             exists p, leaf_at d p x /\ key = dotted parent_key sep p).
  { intros key x Hin.
    change (ClubMember.flatten d parent_key sep)
      with (ClubMember.flatten_entry (VDict d) parent_key sep) in Hin.
    apply flatten_entry_sound in Hin as [(_ & _ & Hleaf)|(d' & p & [= <-] & Hp & ->)];
      [discriminate|]. now exists p. }
  split.
  - intro key. split.
    + intro Hin. apply in_map_iff in Hin as [[k x] [Hk Hin]]. simpl in Hk. subst k.
      destruct (Hsound _ _ Hin) as [p [Hp ->]]. now exists p, x.
    + intros (p & x & Hp & ->). now apply flatten_complete with x.
  - intros key x Hlook. apply Hsound. now apply dict_lookup_In.
Qed.

(** X5: an entry whose value is the empty mapping leaves no trace: flattening
    gives the same result with such entries removed. *)
Theorem flatten_drops_empty_mappings (d : dict) (parent_key sep : string) :
  ClubMember.flatten d parent_key sep =
  ClubMember.flatten (filter (fun kv => negb (is_empty_dict (snd kv))) d) parent_key sep.
Proof.
  unfold ClubMember.flatten, ClubMember.flatten_items. f_equal.
  induction d as [|[k v] t IH]; simpl; [reflexivity|].
  destruct (is_empty_dict v) eqn:E; simpl.
  - destruct v as [| | | | | |[|]]; try discriminate. simpl. exact IH.
  - now rewrite IH.
Qed.

(** ** More on the member record *)

(** X6: constructing a member succeeds exactly when the entry is a mapping whose
    [user] field is missing or is itself a mapping; every failure is an
    [AttributeError]. *)
Theorem init_succeeds_iff (data : value) :
  ((exists m, ClubMember.__init__ data = Return m) <->
   (exists d, data = VDict d /\
      (dict_lookup d "user" = None \/
       exists u, dict_lookup d "user" = Some (VDict u)))) /\
  (forall e, ClubMember.__init__ data = Raise e -> exists msg, e = AttributeError msg).
Proof.
  destruct data as [| b | n | y | s | l | d];
    try (split; [split; [intros [m [=]] | intros (d & [=] & _)]
                | intros e [= <-]; eexists; reflexivity]).
  unfold ClubMember.__init__. simpl.
  destruct (dict_lookup d "user") as [[| b | n | y | s | l | u]|] eqn:E; simpl;
    try (split; [split; [intros [m [=]]
                        | intros (d' & [= <-] & [H | [u' H]]); rewrite E in H; discriminate]
                | intros e [= <-]; eexists; reflexivity]).
  - split; [|discriminate]. split; [|eexists; reflexivity].
    intros _. exists d. split; [reflexivity|]. right. exists u. exact E.
  - split; [|discriminate]. split; [|eexists; reflexivity].
    intros _. exists d. split; [reflexivity|]. now left.
Qed.

Lemma dict_lookup_filter_ne (a : string) (d : dict) (k : string) :
  dict_lookup (filter (fun kv => negb (fst kv =? a)%string) d) k =
  if (k =? a)%string then None else dict_lookup d k.
Proof.
  induction d as [|[k' v'] t IH]; simpl.
  - now destruct (k =? a)%string.
  - destruct (k' =? a)%string eqn:Ea; simpl; rewrite IH.
    + destruct (k =? a)%string eqn:Ek; [reflexivity|].
      destruct (k' =? k)%string eqn:Ekk; [|reflexivity].
      apply String.eqb_eq in Ea, Ekk. subst. now rewrite String.eqb_refl in Ek.
    + destruct (k' =? k)%string eqn:Ekk; [|reflexivity].
      apply String.eqb_eq in Ekk. subst. now rewrite Ea.
Qed.

(** X7: a member built from a well-formed entry splits it: the membership
    fields are the fields of the entry other than [user], with their values; the
    user document is the [user] field, or the empty mapping; statistics and peak
    rating start empty. *)
Theorem init_splits_entry (d : dict) (m : ClubMember.t) :
  NoDup (keys d) ->
  ClubMember.__init__ (VDict d) = Return m ->
  dict_lookup (ClubMember.raw_membership m) "user" = None /\
  (forall k, k <> "user" ->
             dict_lookup (ClubMember.raw_membership m) k = dict_lookup d k) /\
  ClubMember.raw_user m =
    match dict_lookup d "user" with Some u => u | None => VDict [] end /\
  py_get (ClubMember.raw_user m) "userId" (VStr "") = Return (ClubMember.user_id m) /\
  ClubMember.stats m = VDict [] /\
  ClubMember.peak_rating m = VDict [].
Proof.
  intros Hnd Hinit.
  pose proof (init_raw_membership d m Hnd Hinit) as Hmem.
  unfold ClubMember.__init__ in Hinit. simpl in Hinit.
  destruct (py_get _ "userId" _) as [uid|e] eqn:E; simpl in Hinit; [|discriminate].
  injection Hinit as <-. simpl in *. rewrite Hmem.
  split; [now rewrite dict_lookup_filter_ne|].
  split; [|now repeat split].
  intros k Hk. rewrite dict_lookup_filter_ne.
  apply String.eqb_neq in Hk. now rewrite Hk.
Qed.

Lemma init_splits_entry_witness :
  dict_lookup (ClubMember.raw_membership scenario_member) "user" = None /\
  (forall k, k <> "user" ->
             dict_lookup (ClubMember.raw_membership scenario_member) k =
             dict_lookup [("user", VDict [("userId", VStr "u1"); ("nick", VStr "Alice")]);
                          ("role", VStr "admin")] k) /\
  ClubMember.raw_user scenario_member =
    VDict [("userId", VStr "u1"); ("nick", VStr "Alice")].
Proof.
  assert (Hnd : NoDup (keys [("user", VDict [("userId", VStr "u1"); ("nick", VStr "Alice")]);
                             ("role", VStr "admin")])).
  { simpl. repeat constructor; simpl; intuition discriminate. }
  destruct (init_splits_entry _ scenario_member Hnd eq_refl) as (A & B & C & _).
  split; [exact A|]. split; [exact B | exact C].
Defined.

(** What a successful [to_dict] says about the member. *)
Lemma to_dict_inv (self : ClubMember.t) (row : dict) :
  ClubMember.to_dict self = Return row ->
  exists u s r,
    ClubMember.raw_user self = VDict u /\
    ClubMember.stats self = VDict s /\
    ClubMember.peak_rating self = VDict r /\
    row = dict_splat [ClubMember.flatten u "user" ".";
                      ClubMember.flatten (ClubMember.raw_membership self) "membership" ".";
                      ClubMember.flatten s "stats" ".";
                      ClubMember.flatten r "peakRating" "."].
Proof.
  destruct self as [m ru uid st pr]. unfold ClubMember.to_dict. simpl.
  destruct ru; try discriminate. destruct st; try discriminate.
  destruct pr; try discriminate. simpl. intros [= <-].
  eexists _, _, _. repeat split.
Qed.

(** X8: [to_dict] succeeds exactly when the user document, the statistics and the
    peak rating are all mappings; otherwise it raises the [AttributeError] of
    [.items()] on the first of them that is not. *)
Theorem to_dict_succeeds_iff (self : ClubMember.t) :
  ((exists row, ClubMember.to_dict self = Return row) <->
   is_dict (ClubMember.raw_user self) && is_dict (ClubMember.stats self)
     && is_dict (ClubMember.peak_rating self) = true) /\
  (forall e, ClubMember.to_dict self = Raise e ->
     exists v, is_dict v = false /\ e = no_attribute v "items" /\
       (v = ClubMember.raw_user self \/ v = ClubMember.stats self
        \/ v = ClubMember.peak_rating self)).
Proof.
  split.
  - split.
    + intros [row H]. apply to_dict_inv in H as (u & s & r & -> & -> & -> & _).
      reflexivity.
    + destruct self as [m ru uid st pr]. simpl.
      destruct ru; try discriminate. destruct st; try discriminate.
      destruct pr; try discriminate. intros _. eexists. reflexivity.
  - destruct self as [m ru uid st pr]. unfold ClubMember.to_dict. simpl. intro e.
    destruct ru; simpl;
      try (intros [= <-]; eexists; split; [|split; [reflexivity|left; reflexivity]];
           reflexivity).
    destruct st; simpl;
      try (intros [= <-]; eexists; split; [|split; [reflexivity|right; left; reflexivity]];
           reflexivity).
    destruct pr; simpl;
      try (intros [= <-]; eexists; split; [|split; [reflexivity|right; right; reflexivity]];
           reflexivity).
    discriminate.
Qed.

(** X9: an answer that is truthy but not a mapping, a non-empty list say, is
    stored as it is by the updates, and flattening the member then raises. *)
Theorem to_dict_rejects_non_mapping (self : ClubMember.t) (u : dict) (v : value) :
  ClubMember.raw_user self = VDict u ->
  truthy v = true -> is_dict v = false ->
  ClubMember.stats (ClubMember.update_stats self v) = v /\
  ClubMember.to_dict (ClubMember.update_stats self v) = Raise (no_attribute v "items") /\
  (forall s, ClubMember.stats self = VDict s ->
     ClubMember.to_dict (ClubMember.update_peak_rating self v) =
     Raise (no_attribute v "items")).
Proof.
  intros Hu Ht Hd. destruct self as [m ru uid st pr]. simpl in Hu. subst ru.
  unfold ClubMember.to_dict, ClubMember.update_stats, ClubMember.update_peak_rating, py_or.
  simpl. rewrite Ht. split; [reflexivity|]. split.
  - destruct v; try discriminate; reflexivity.
  - intros s ->. destruct v; try discriminate; reflexivity.
Qed.

Lemma to_dict_rejects_non_mapping_witness :
  ClubMember.to_dict (ClubMember.update_stats scenario_member (VList [VInt 1])) =
  Raise (AttributeError "'list' object has no attribute 'items'").
Proof.
  destruct (to_dict_rejects_non_mapping scenario_member
              [("userId", VStr "u1"); ("nick", VStr "Alice")] (VList [VInt 1])
              eq_refl eq_refl eq_refl) as (_ & A & _).
  exact A.
Defined.

Lemma disjoint_app_r (a b c : dict) :
  disjoint a b -> disjoint a c -> disjoint a (b ++ c).
Proof.
  intros Hb Hc k Ha Hin. rewrite keys_app in Hin.
  apply in_app_or in Hin as [Hin|Hin]; [exact (Hb k Ha Hin) | exact (Hc k Ha Hin)].
Qed.

Lemma NoDup_keys_app (a b : dict) :
  NoDup (keys a) -> NoDup (keys b) -> disjoint a b -> NoDup (keys (a ++ b)).
Proof.
  intros Ha Hb Hd. rewrite keys_app. now apply NoDup_app.
Qed.

(** The merge of the four sections is their concatenation. *)
Lemma splat_sections (m u s r : dict) :
  dict_splat [ClubMember.flatten u "user" "."; ClubMember.flatten m "membership" ".";
              ClubMember.flatten s "stats" "."; ClubMember.flatten r "peakRating" "."] =
  ClubMember.flatten u "user" "." ++ ClubMember.flatten m "membership" "." ++
  ClubMember.flatten s "stats" "." ++ ClubMember.flatten r "peakRating" ".".
Proof.
  unfold dict_splat. simpl. rewrite app_nil_r. apply dict__NoDup.
  repeat (apply NoDup_keys_app;
          [apply NoDup_keys_dict_ | | repeat apply disjoint_app_r;
                                        apply flatten_disjoint; discriminate]).
  apply NoDup_keys_dict_.
Qed.

(** X10: when the four fields are mappings, the flattened record is the four
    sections one after the other: user, membership, statistics, peak rating. *)
Theorem to_dict_is_concatenation (m u s r : dict) (uid : value) :
  ClubMember.to_dict (ClubMember.mk m (VDict u) uid (VDict s) (VDict r)) =
  Return (ClubMember.flatten u "user" "." ++
          ClubMember.flatten m "membership" "." ++
          ClubMember.flatten s "stats" "." ++
          ClubMember.flatten r "peakRating" ".").
Proof.
  unfold ClubMember.to_dict, ClubMember.flatten_dict.
  cbn [py_items rbind ClubMember.raw_user ClubMember.raw_membership
       ClubMember.stats ClubMember.peak_rating].
  now rewrite splat_sections.
Qed.

(** X11: every key of a flattened record starts with the name of one of the four
    sections and a dot. *)
Theorem to_dict_keys_prefixed (self : ClubMember.t) (row : dict) (k : string) :
  ClubMember.to_dict self = Return row ->
  In k (keys row) ->
  prefix "user." k || prefix "membership." k
    || prefix "stats." k || prefix "peakRating." k = true.
Proof.
  intros H Hin. apply to_dict_inv in H as (u & s & r & _ & _ & _ & ->).
  unfold dict_splat in Hin. apply (proj1 (keys_dict_ _ _)) in Hin.
  apply (proj1 (In_keys_concat _ _)) in Hin as [d [Hd Hin]].
  destruct Hd as [<-|[<-|[<-|[<-|[]]]]];
    apply flatten_keys in Hin; try discriminate;
    simpl append in Hin; rewrite Hin; rewrite ?orb_true_r; reflexivity.
Qed.

Lemma to_dict_keys_prefixed_witness :
  prefix "user." "user.nick" || prefix "membership." "user.nick"
    || prefix "stats." "user.nick" || prefix "peakRating." "user.nick" = true.
Proof.
  apply (to_dict_keys_prefixed scenario_member
           [("user.userId", VStr "u1"); ("user.nick", VStr "Alice");
            ("membership.role", VStr "admin")] "user.nick").
  - reflexivity.
  - simpl. tauto.
Defined.

(** ** More on the client *)

(** X12: constructing the client raises the configuration error exactly when
    neither the argument nor the environment holds a non-empty credential, and
    then the world is untouched.  Otherwise it creates one session, sends
    nothing, and the cookie carries the argument if it is non-empty and the
    environment's credential if not. *)
Theorem init_raises_iff (ncfa_token : option string) (w : world) :
  raises ConfigurationError (fst (GeoGuessrClubAPI.__init__ ncfa_token w)) =
    GeoGuessrClubAPI.not_token ncfa_token
    && GeoGuessrClubAPI.not_token (environ w "NCFA_TOKEN") /\
  (forall e, fst (GeoGuessrClubAPI.__init__ ncfa_token w) = Raise e ->
     snd (GeoGuessrClubAPI.__init__ ncfa_token w) = w) /\
  (forall api, fst (GeoGuessrClubAPI.__init__ ncfa_token w) = Return api ->
     exists tok,
       chosen_token ncfa_token w = Some tok /\ tok <> EmptyString /\
       cookies (GeoGuessrClubAPI.session api) = [("_ncfa", tok, "www.geoguessr.com")] /\
       headers (GeoGuessrClubAPI.session api) =
         [("User-Agent", "GeoStatsClub/1.0"); ("Accept", "application/json")] /\
       sessions (snd (GeoGuessrClubAPI.__init__ ncfa_token w)) = S (sessions w) /\
       sent (snd (GeoGuessrClubAPI.__init__ ncfa_token w)) = sent w).
Proof.
  unfold GeoGuessrClubAPI.__init__, chosen_token, bind, getenv, new_session, raise, ret.
  destruct (GeoGuessrClubAPI.not_token ncfa_token) eqn:Ha; simpl.
  - destruct (GeoGuessrClubAPI.not_token (environ w "NCFA_TOKEN")) eqn:He; simpl.
    + split; [reflexivity|]. split; [reflexivity | discriminate].
    + split; [reflexivity|]. split; [discriminate|]. intros api [= <-].
      destruct (environ w "NCFA_TOKEN") as [tok|]; [|discriminate].
      exists tok. simpl in He. apply String.eqb_neq in He. now repeat split.
  - rewrite Ha. simpl. split; [reflexivity|]. split; [discriminate|]. intros api [= <-].
    destruct ncfa_token as [tok|]; [|discriminate].
    exists tok. simpl in Ha. apply String.eqb_neq in Ha. now repeat split.
Qed.

Lemma _get_world (self : GeoGuessrClubAPI.t) (path : string) (raise_on_error : bool) (w : world) :
  snd (GeoGuessrClubAPI._get self path raise_on_error w) =
  after_requests w [(GeoGuessrClubAPI.BASE_URL ++ path)%string].
Proof.
  unfold GeoGuessrClubAPI._get, bind, session_get, lift, raise, ret, after_requests. simpl.
  destruct (status_code _ =? 200)%Z; [|destruct raise_on_error]; reflexivity.
Qed.

(** X13: each call of the client sends exactly one GET request, to the URL of its
    endpoint, whatever the answer and whether or not the call raises; it changes
    nothing else of the world. *)
Theorem client_call_sends_one_request (self : GeoGuessrClubAPI.t) (id : string) (w : world) :
  snd (GeoGuessrClubAPI.get_profile self w) =
    after_requests w ["https://www.geoguessr.com/api/v3/profiles"] /\
  snd (GeoGuessrClubAPI.get_club_members self id w) =
    after_requests w [("https://www.geoguessr.com/api/v4/clubs/" ++ id ++ "/members")%string] /\
  snd (GeoGuessrClubAPI.get_user_stats self id w) =
    after_requests w [("https://www.geoguessr.com/api/v4/stats/users/" ++ id)%string] /\
  snd (GeoGuessrClubAPI.get_user_peak_rating self id w) =
    after_requests w
      [("https://www.geoguessr.com/api/v4/ranked-system/peak-rating/" ++ id)%string].
Proof.
  unfold GeoGuessrClubAPI.get_profile, GeoGuessrClubAPI.get_club_members,
    GeoGuessrClubAPI.get_user_stats, GeoGuessrClubAPI.get_user_peak_rating.
  rewrite !_get_world. repeat split.
Qed.

(** ** The per-member loop *)

Lemma tolerant_get_run (self : GeoGuessrClubAPI.t) (path : string) (w : world) :
  answers_json (server w) ->
  GeoGuessrClubAPI._get self path false w =
  (Return (answer (server w) (GeoGuessrClubAPI.BASE_URL ++ path)),
   after_requests w [(GeoGuessrClubAPI.BASE_URL ++ path)%string]).
Proof.
  intro H. specialize (H (GeoGuessrClubAPI.BASE_URL ++ path)%string).
  unfold GeoGuessrClubAPI._get, bind, session_get, lift, ret, after_requests, answer, json.
  remember (GeoGuessrClubAPI.BASE_URL ++ path)%string as url. cbn [status_code body server].
  destruct (Z.eqb_spec (status_code (server w url)) 200) as [Hs|Hs]; [|reflexivity].
  destruct (body (server w url)); [reflexivity|]. now destruct (H Hs).
Qed.

(** One run of the loop, as an equation. *)
Lemma fetch_loop_run (py_repr : value -> string) (api : GeoGuessrClubAPI.t)
    (members : list ClubMember.t) :
  forall (n i : nat) (w : world),
  answers_json (server w) ->
  Forall (fun m => is_dict (ClubMember.raw_user m) = true) members ->
  fetch_loop py_repr api n i members w =
  (Return (map (refresh py_repr (server w)) members),
   mk_world (environ w) (server w) (sessions w)
     (sent w ++ flat_map (fun m => [stats_url py_repr m; rating_url py_repr m]) members)
     (stdout w ++ progress_lines py_repr n i members)
     (slept w + List.length members)
     (files w)).
Proof.
  induction members as [|m rest IH]; intros n i w Hjson Hall.
  - destruct w. simpl. unfold ret. now rewrite !app_nil_r, Nat.add_0_r.
  - inversion Hall as [|? ? Hm Hrest]; subst.
    simpl fetch_loop. unfold bind at 1.
    unfold GeoGuessrClubAPI.get_user_stats. rewrite (tolerant_get_run _ _ _ Hjson).
    unfold bind at 1.
    unfold GeoGuessrClubAPI.get_user_peak_rating.
    rewrite (tolerant_get_run _ _ (after_requests w _) Hjson).
    unfold bind at 1. unfold lift, ClubMember.nick. simpl ClubMember.raw_user.
    destruct m as [mm ru uid st pr]. simpl in Hm.
    destruct ru as [| | | | | | u]; try discriminate. simpl py_get.
    unfold bind at 1. unfold print at 1. unfold bind at 1. unfold sleep at 1.
    unfold bind at 1. rewrite IH; [|exact Hjson|exact Hrest].
    unfold ret, after_requests. simpl. f_equal. f_equal.
    + now rewrite <- !app_assoc.
    + now rewrite <- app_assoc.
    + lia.
Qed.

Lemma stats_only_server_answers_json : answers_json stats_only_server.
Proof.
  intros url. unfold stats_only_server.
  destruct (url =? _)%string; simpl; discriminate.
Qed.

(** X14: against a service whose 200 answers are JSON, the loop never raises,
    whatever the statuses: it hands back every member, in order, updated with the
    answers to its own two requests ([None] for a failed one); it sends those two
    requests per member in order, prints one line and pauses once per member, and
    writes no file. *)
Theorem fetch_loop_refreshes (py_repr : value -> string) (api : GeoGuessrClubAPI.t)
    (members : list ClubMember.t) (n i : nat) (w : world) :
  answers_json (server w) ->
  Forall (fun m => is_dict (ClubMember.raw_user m) = true) members ->
  let run := fetch_loop py_repr api n i members w in
  fst run = Return (map (refresh py_repr (server w)) members) /\
  sent (snd run) =
    sent w ++ flat_map (fun m => [stats_url py_repr m; rating_url py_repr m]) members /\
  stdout (snd run) = stdout w ++ progress_lines py_repr n i members /\
  slept (snd run) = slept w + List.length members /\
  files (snd run) = files w /\
  sessions (snd run) = sessions w.
Proof.
  intros Hjson Hall run. unfold run.
  rewrite (fetch_loop_run py_repr api members n i w Hjson Hall).
  repeat split.
Qed.

Lemma fetch_loop_refreshes_witness :
  let run := fetch_loop (fun _ => "x") sample_api 1 1 [scenario_member]
               (initial_world token_environ stats_only_server) in
  fst run = Return (map (refresh (fun _ => "x") stats_only_server) [scenario_member]) /\
  sent (snd run) =
    [] ++ flat_map (fun m => [stats_url (fun _ => "x") m; rating_url (fun _ => "x") m])
                   [scenario_member] /\
  stdout (snd run) = [] ++ progress_lines (fun _ => "x") 1 1 [scenario_member] /\
  slept (snd run) = 0 + List.length [scenario_member] /\
  files (snd run) = [] /\
  sessions (snd run) = 0.
Proof.
  apply (fetch_loop_refreshes (fun _ => "x") sample_api [scenario_member] 1 1
           (initial_world token_environ stats_only_server)).
  - exact stats_only_server_answers_json.
  - repeat constructor.
Defined.

(** ** Export *)

Lemma comprehension_lift {A B : Type} (f : A -> result B) (xs : list A) (w : world) :
  comprehension (fun x => lift (f x)) xs w = (traverse f xs, w).
Proof.
  induction xs as [|x t IH]; simpl; [reflexivity|].
  unfold bind at 1. unfold lift at 1. destruct (f x) as [y|e]; simpl; [|reflexivity].
  unfold bind at 1. rewrite IH. now destruct (traverse f t).
Qed.


Lemma traverse_Exists {A B : Type} (f : A -> result B) (xs : list A) :
  Exists (fun x => exists e, f x = Raise e) xs -> exists e, traverse f xs = Raise e.
Proof.
  induction 1 as [x t [e He] | x t _ [e IH]]; simpl.
  - exists e. now rewrite He.
  - destruct (f x) as [y|e']; simpl; [|now exists e'].
    exists e. now rewrite IH.
Qed.




(** X16: when some member does not flatten, the export raises before anything
    is written or printed. *)
Theorem export_writes_nothing_on_failure (members : list ClubMember.t)
    (filename : string) (w : world) :
  Exists (fun m => exists e, ClubMember.to_dict m = Raise e) members ->
  exists e, export_members_to_csv members filename w = (Raise e, w).
Proof.
  intro H. apply traverse_Exists in H as [e He]. exists e.
  unfold export_members_to_csv. unfold bind at 1.
  now rewrite comprehension_lift, He.
Qed.

Lemma export_writes_nothing_on_failure_witness :
  exists e,
    export_members_to_csv
      [scenario_member; ClubMember.update_stats scenario_member (VList [VInt 1])]
      "out.csv" (initial_world token_environ not_found)
    = (Raise e, initial_world token_environ not_found).
Proof.
  apply (export_writes_nothing_on_failure
           [scenario_member; ClubMember.update_stats scenario_member (VList [VInt 1])]
           "out.csv" (initial_world token_environ not_found)).
  apply Exists_cons_tl. apply Exists_cons_hd. eexists. reflexivity.
Defined.

(** ** More on the main program *)

Lemma init_run (w : world) (tok : string) :
  environ w "NCFA_TOKEN" = Some tok -> tok <> EmptyString ->
  GeoGuessrClubAPI.__init__ None w = (Return (client_of tok), with_session w).
Proof.
  intros Henv Htok. apply String.eqb_neq in Htok.
  unfold GeoGuessrClubAPI.__init__, bind, getenv, new_session, ret. simpl.
  rewrite Henv. simpl. now rewrite Htok.
Qed.

Lemma strict_get_ok (self : GeoGuessrClubAPI.t) (path : string) (w : world) (v : value) :
  server w (GeoGuessrClubAPI.BASE_URL ++ path)%string = mk_response 200 (Some v) ->
  GeoGuessrClubAPI._get self path true w =
  (Return v, after_requests w [(GeoGuessrClubAPI.BASE_URL ++ path)%string]).
Proof.
  intro H. unfold GeoGuessrClubAPI._get, bind, session_get, lift, after_requests, json.
  remember (GeoGuessrClubAPI.BASE_URL ++ path)%string as url.
  cbn [status_code body server]. now rewrite H.
Qed.

Lemma strict_get_fail (self : GeoGuessrClubAPI.t) (path : string) (w : world) :
  status_code (server w (GeoGuessrClubAPI.BASE_URL ++ path)%string) <> 200%Z ->
  GeoGuessrClubAPI._get self path true w =
  (Raise (fetch_failure path
            (status_code (server w (GeoGuessrClubAPI.BASE_URL ++ path)%string))),
   after_requests w [(GeoGuessrClubAPI.BASE_URL ++ path)%string]).
Proof.
  intro H. apply Z.eqb_neq in H.
  unfold GeoGuessrClubAPI._get, bind, session_get, raise, after_requests, fetch_failure.
  remember (GeoGuessrClubAPI.BASE_URL ++ path)%string as url.
  cbn [status_code body server]. now rewrite H.
Qed.

(** X17: with no usable credential in the environment, an empty one included,
    the main program raises the configuration error and does nothing else. *)
Theorem main_without_credential (py_repr : value -> string) (w : world) :
  GeoGuessrClubAPI.not_token (environ w "NCFA_TOKEN") = true ->
  main py_repr w =
  (Raise (ValueError "NCFA_TOKEN must be provided or set in environment variables"), w).
Proof.
  intro H. unfold main. unfold bind at 1.
  now rewrite (init_no_token None w eq_refl H).
Qed.

Lemma main_without_credential_witness :
  main (fun _ => "x") (initial_world empty_environ (always empty_user_profile)) =
  (Raise (ValueError "NCFA_TOKEN must be provided or set in environment variables"),
   initial_world empty_environ (always empty_user_profile)).
Proof.
  apply (main_without_credential (fun _ => "x")
           (initial_world empty_environ (always empty_user_profile))).
  reflexivity.
Defined.

(** X18: when the profile request is answered with a status other than 200, the
    main program raises the error of [_get] carrying that status, having created
    its session and sent that one request; nothing is printed or written. *)
Theorem main_profile_failure (py_repr : value -> string) (w : world) (tok : string) :
  environ w "NCFA_TOKEN" = Some tok -> tok <> EmptyString ->
  status_code (server w profile_url) <> 200%Z ->
  main py_repr w =
  (Raise (fetch_failure "/v3/profiles" (status_code (server w profile_url))),
   after_requests (with_session w) [profile_url]).
Proof.
  intros Henv Htok Hs. unfold main. unfold bind at 1.
  rewrite (init_run w tok Henv Htok). unfold bind at 1.
  unfold GeoGuessrClubAPI.get_profile.
  now rewrite (strict_get_fail _ _ (with_session w) Hs).
Qed.

Lemma main_profile_failure_witness :
  main (fun _ => "x") (initial_world token_environ not_found) =
  (Raise (Exception "Failed to fetch /v3/profiles: HTTP 404"),
   after_requests (with_session (initial_world token_environ not_found)) [profile_url]).
Proof.
  apply (main_profile_failure (fun _ => "x") (initial_world token_environ not_found) "token").
  - reflexivity.
  - discriminate.
  - discriminate.
Defined.

(** The main program up to the club identifier. *)
Lemma main_profile_ok (py_repr : value -> string) (w : world) (tok : string) (profile : value) :
  environ w "NCFA_TOKEN" = Some tok -> tok <> EmptyString ->
  server w profile_url = mk_response 200 (Some profile) ->
  main py_repr w =
  match club_id_of profile with
  | Raise e => (Raise e, after_requests (with_session w) [profile_url])
  | Return CLUB_ID =>
      if negb (truthy CLUB_ID)
      then (Raise (ValueError "User is not in a club or clubId not found in profile."),
            after_requests (with_session w) [profile_url])
      else main_with_club py_repr (client_of tok) CLUB_ID
             (after_requests (with_session w) [profile_url])
  end.
Proof.
  intros Henv Htok Hsrv. unfold main. unfold bind at 1.
  rewrite (init_run w tok Henv Htok). unfold bind at 1.
  unfold GeoGuessrClubAPI.get_profile.
  rewrite (strict_get_ok _ _ (with_session w) profile Hsrv).
  unfold club_id_of.
  unfold bind at 1. unfold lift at 1.
  destruct (py_get profile "user" (VDict [])) as [user|e]; [|reflexivity].
  unfold bind at 1. unfold lift at 1. cbn [rbind].
  destruct (py_get user "club" (VDict [])) as [club|e]; [|reflexivity].
  unfold bind at 1. unfold lift at 1. cbn [rbind].
  destruct (py_get club "clubId" VNone) as [cid|e]; [|reflexivity].
  destruct (negb (truthy cid)); reflexivity.
Qed.

(** X19: when the path [user.club.clubId] of the profile ends on a missing key
    or on a falsy value, the empty string or zero included, the main program
    raises the configuration error after the profile request alone. *)
Theorem main_club_id_missing (py_repr : value -> string) (w : world) (tok : string)
    (profile club_id : value) :
  environ w "NCFA_TOKEN" = Some tok -> tok <> EmptyString ->
  server w profile_url = mk_response 200 (Some profile) ->
  club_id_of profile = Return club_id -> truthy club_id = false ->
  main py_repr w =
  (Raise (ValueError "User is not in a club or clubId not found in profile."),
   after_requests (with_session w) [profile_url]).
Proof.
  intros Henv Htok Hsrv Hid Hfalsy.
  rewrite (main_profile_ok py_repr w tok profile Henv Htok Hsrv), Hid, Hfalsy.
  reflexivity.
Qed.

Lemma main_club_id_missing_witness :
  main (fun _ => "x")
    (initial_world token_environ
       (always (VDict [("user", VDict [("club", VDict [("clubId", VStr "")])])]))) =
  (Raise (ValueError "User is not in a club or clubId not found in profile."),
   after_requests
     (with_session
        (initial_world token_environ
           (always (VDict [("user", VDict [("club", VDict [("clubId", VStr "")])])]))))
     [profile_url]).
Proof.
  apply (main_club_id_missing (fun _ => "x") _ "token"
           (VDict [("user", VDict [("club", VDict [("clubId", VStr "")])])]) (VStr ""));
    try reflexivity.
  discriminate.
Defined.

(** X20: when a step of the path [user.club.clubId] meets a value that is not a
    mapping, the main program stops with the error of that [.get], after the
    profile request alone. *)
Theorem main_profile_shape_error (py_repr : value -> string) (w : world) (tok : string)
    (profile : value) (e : exn) :
  environ w "NCFA_TOKEN" = Some tok -> tok <> EmptyString ->
  server w profile_url = mk_response 200 (Some profile) ->
  club_id_of profile = Raise e ->
  (exists msg, e = AttributeError msg) /\
  main py_repr w = (Raise e, after_requests (with_session w) [profile_url]).
Proof.
  intros Henv Htok Hsrv Hid. split.
  - unfold club_id_of in Hid.
    destruct profile; try (injection Hid as <-; eexists; reflexivity).
    simpl in Hid.
    destruct (match dict_lookup d "user" with Some x => x | None => VDict [] end);
      try (injection Hid as <-; eexists; reflexivity).
    simpl in Hid.
    destruct (match dict_lookup d0 "club" with Some x => x | None => VDict [] end);
      try (injection Hid as <-; eexists; reflexivity).
    discriminate.
  - now rewrite (main_profile_ok py_repr w tok profile Henv Htok Hsrv), Hid.
Qed.

Lemma main_profile_shape_error_witness :
  main (fun _ => "x") (initial_world token_environ (always (VList []))) =
  (Raise (AttributeError "'list' object has no attribute 'get'"),
   after_requests (with_session (initial_world token_environ (always (VList []))))
     [profile_url]).
Proof.
  apply (main_profile_shape_error (fun _ => "x") _ "token" (VList []));
    try reflexivity.
  discriminate.
Defined.

(** X21: when the member list request is answered with a status other than 200,
    the main program raises the error of [_get] carrying that status after its
    two requests; no member is fetched and nothing is printed or written. *)
Theorem main_members_failure (py_repr : value -> string) (w : world) (tok : string)
    (profile club_id : value) :
  environ w "NCFA_TOKEN" = Some tok -> tok <> EmptyString ->
  server w profile_url = mk_response 200 (Some profile) ->
  club_id_of profile = Return club_id -> truthy club_id = true ->
  status_code (server w (members_url (format py_repr club_id))) <> 200%Z ->
  main py_repr w =
  (Raise (fetch_failure ("/v4/clubs/" ++ format py_repr club_id ++ "/members")
            (status_code (server w (members_url (format py_repr club_id))))),
   after_requests (with_session w) [profile_url; members_url (format py_repr club_id)]).
Proof.
  intros Henv Htok Hsrv Hid Htruthy Hs.
  rewrite (main_profile_ok py_repr w tok profile Henv Htok Hsrv), Hid, Htruthy.
  cbn [negb]. unfold main_with_club. unfold bind at 1.
  unfold GeoGuessrClubAPI.get_club_members.
  rewrite (strict_get_fail _ _ (after_requests (with_session w) [profile_url]) Hs).
  unfold after_requests, with_session.
  cbn [environ server sessions sent stdout slept files].
  rewrite <- app_assoc. reflexivity.
Qed.

Lemma main_members_failure_witness :
  main (fun _ => "x") (initial_world token_environ profile_only_server) =
  (Raise (Exception "Failed to fetch /v4/clubs/c1/members: HTTP 503"),
   after_requests (with_session (initial_world token_environ profile_only_server))
     [profile_url; members_url "c1"]).
Proof.
  apply (main_members_failure (fun _ => "x")
           (initial_world token_environ profile_only_server) "token"
           (VDict [("user", VDict [("club", VDict [("clubId", VStr "c1")])])])
           (VStr "c1"));
    try reflexivity; discriminate.
Defined.


Lemma main_members_ok (py_repr : value -> string) (w : world) (tok : string)
    (profile club_id members_json : value) :
  environ w "NCFA_TOKEN" = Some tok -> tok <> EmptyString ->
  server w profile_url = mk_response 200 (Some profile) ->
  club_id_of profile = Return club_id -> truthy club_id = true ->
  server w (members_url (format py_repr club_id)) = mk_response 200 (Some members_json) ->
  main py_repr w =
  (entries <- lift (py_iter members_json) ;;
   members <- comprehension (fun m => lift (ClubMember.__init__ m)) entries ;;
   print "Fetching user stats and ratings..." ;;;
   members <- fetch_loop py_repr (client_of tok) (List.length members) 1 members ;;
   export_members_to_csv members "club_members_with_all_stats.csv")%monad
    (after_requests (with_session w) [profile_url; members_url (format py_repr club_id)]).
Proof.
  intros Henv Htok Hsrv Hid Htruthy Hm.
  rewrite (main_profile_ok py_repr w tok profile Henv Htok Hsrv), Hid, Htruthy.
  cbn [negb]. unfold main_with_club. unfold bind at 1.
  unfold GeoGuessrClubAPI.get_club_members.
  rewrite (strict_get_ok _ _ (after_requests (with_session w) [profile_url]) members_json Hm).
  unfold after_requests at 2 3. unfold after_requests at 1.
  cbn [environ server sessions sent stdout slept files].
  rewrite <- app_assoc. reflexivity.
Qed.




(** X23: one entry of the member list that does not construct, one whose [user]
    is null say, aborts the run right after the member list request: no member
    is fetched and nothing is printed or written. *)
Theorem main_malformed_entry (py_repr : value -> string) (w : world) (tok : string)
    (profile club_id : value) (entries : list value) :
  environ w "NCFA_TOKEN" = Some tok -> tok <> EmptyString ->
  server w profile_url = mk_response 200 (Some profile) ->
  club_id_of profile = Return club_id -> truthy club_id = true ->
  server w (members_url (format py_repr club_id)) = mk_response 200 (Some (VList entries)) ->
  Exists (fun entry => exists e, ClubMember.__init__ entry = Raise e) entries ->
  exists e,
    main py_repr w =
    (Raise e,
     after_requests (with_session w) [profile_url; members_url (format py_repr club_id)]).
Proof.
  intros Henv Htok Hsrv Hid Htruthy Hm Hbad.
  apply traverse_Exists in Hbad as [e He]. exists e.
  rewrite (main_members_ok py_repr w tok profile club_id (VList entries)
             Henv Htok Hsrv Hid Htruthy Hm).
  unfold bind at 1. unfold lift at 1. cbn [py_iter].
  unfold bind at 1. now rewrite comprehension_lift, He.
Qed.

Lemma main_malformed_entry_witness :
  exists e,
    main (fun _ => "x")
      (initial_world token_environ
         (club_server (VList [scenario_entry; VDict [("user", VNone)]]))) =
    (Raise e,
     after_requests
       (with_session
          (initial_world token_environ
             (club_server (VList [scenario_entry; VDict [("user", VNone)]]))))
       [profile_url; members_url "c1"]).
Proof.
  apply (main_malformed_entry (fun _ => "x")
           (initial_world token_environ
              (club_server (VList [scenario_entry; VDict [("user", VNone)]])))
           "token"
           (VDict [("user", VDict [("club", VDict [("clubId", VStr "c1")])])])
           (VStr "c1") [scenario_entry; VDict [("user", VNone)]]);
    try reflexivity.
  - discriminate.
  - apply Exists_cons_tl. apply Exists_cons_hd. eexists. reflexivity.
Defined.

(** ** Two more edges *)

(** X24: a 200 answer whose body is not JSON makes a client call raise the
    decode error, for the tolerant endpoints as for the strict ones: the
    [raise_on_error] flag only covers the status. *)
Theorem get_undecodable_body (self : GeoGuessrClubAPI.t) (path : string)
    (raise_on_error : bool) (w : world) :
  status_code (server w (GeoGuessrClubAPI.BASE_URL ++ path)%string) = 200%Z ->
  body (server w (GeoGuessrClubAPI.BASE_URL ++ path)%string) = None ->
  GeoGuessrClubAPI._get self path raise_on_error w =
  (Raise JSONDecodeError, after_requests w [(GeoGuessrClubAPI.BASE_URL ++ path)%string]).
Proof.
  intros Hs Hb.
  unfold GeoGuessrClubAPI._get, bind, session_get, lift, after_requests, json.
  remember (GeoGuessrClubAPI.BASE_URL ++ path)%string as url.
  cbn [status_code body server]. now rewrite Hs, Hb.
Qed.

Lemma get_undecodable_body_witness :
  GeoGuessrClubAPI.get_user_stats sample_api "u1" (initial_world token_environ not_json) =
  (Raise JSONDecodeError,
   after_requests (initial_world token_environ not_json)
     ["https://www.geoguessr.com/api/v4/stats/users/u1"]).
Proof.
  apply (get_undecodable_body sample_api "/v4/stats/users/u1" false
           (initial_world token_environ not_json)); reflexivity.
Defined.

(** X25: a member whose two answers are both falsy, [None] from a failed
    request included, flattens to its user and membership sections alone. *)
Theorem to_dict_without_answers (self : ClubMember.t) (u : dict) (a b : value) :
  ClubMember.raw_user self = VDict u ->
  truthy a = false -> truthy b = false ->
  ClubMember.to_dict (ClubMember.update_peak_rating (ClubMember.update_stats self a) b) =
  Return (ClubMember.flatten u "user" "." ++
          ClubMember.flatten (ClubMember.raw_membership self) "membership" ".").
Proof.
  intros Hu Ha Hb. destruct self as [m ru uid st pr]. simpl in Hu. subst ru.
  unfold ClubMember.update_peak_rating, ClubMember.update_stats, py_or.
  cbn [ClubMember.raw_membership ClubMember.raw_user ClubMember.user_id
       ClubMember.stats ClubMember.peak_rating].
  rewrite Ha, Hb. unfold ClubMember.to_dict, ClubMember.flatten_dict.
  cbn [py_items rbind ClubMember.raw_user ClubMember.raw_membership
       ClubMember.stats ClubMember.peak_rating].
  rewrite splat_sections. now rewrite !app_nil_r.
Qed.

Lemma to_dict_without_answers_witness :
  ClubMember.to_dict
    (ClubMember.update_peak_rating (ClubMember.update_stats scenario_member VNone) (VList [])) =
  Return (ClubMember.flatten [("userId", VStr "u1"); ("nick", VStr "Alice")] "user" "." ++
          ClubMember.flatten (ClubMember.raw_membership scenario_member) "membership" ".").
Proof.
  apply (to_dict_without_answers scenario_member
           [("userId", VStr "u1"); ("nick", VStr "Alice")] VNone (VList []));
    reflexivity.
Defined.
